(** * Audio adaptation pipeline of the text-to-speech service

    Shallow embedding of [Node/services/text_to_speech/text_to_speech_ibm.py]:
    WAV extraction with stereo downmix, the linear resampler, the
    high-quality resampler with its fallback chain, the test-tone generator
    and the synthesis entry point with its chain of fallbacks.

    Python values are modelled as follows.
    - [bytes] / [bytearray]: [list Byte.byte].
    - [int]: [Z] (unbounded, as in Python).
    - [float] and [np.float64]: the kernel's binary64 numbers ([PrimFloat]),
      so the arithmetic of the source is reproduced bit for bit.
    - exceptions: the [result] monad; a [try]/[except Exception] is a match
      on [Raise].
    - [np.int16] arrays: [list Z] with every element in [-32768, 32767]. *)

From Stdlib Require Import ZArith List Lia Bool Floats.
From Stdlib.Strings Require Byte String.
Import String.StringSyntax.
Delimit Scope string_scope with string.
Import ListNotations.
Open Scope Z_scope.

(** ** Exceptions *)

Inductive exn : Set :=
| ValueError | ZeroDivisionError | OverflowError | IndexError
| ImportError | NameError
| StructError | WaveError | EOFError | RuntimeError
| ApiException | OtherException.

Inductive result (A : Type) : Type :=
| Ok (a : A)
| Raise (e : exn).
Arguments Ok {A} a.
Arguments Raise {A} e.

Definition bind {A B : Type} (c : result A) (k : A -> result B) : result B :=
  match c with
  | Ok a => k a
  | Raise e => Raise e
  end.

Notation "x <- c ;; k" := (bind c (fun x => k))
  (at level 61, c at next level, right associativity).
Notation "c ;;; k" := (bind c (fun _ => k))
  (at level 61, right associativity).

(** [try: body except Exception: handler] for a body that returns. *)
Definition try_except {A : Type} (body : result A) (handler : exn -> A) : A :=
  match body with
  | Ok a => a
  | Raise e => handler e
  end.

Definition is_ok {A : Type} (c : result A) : bool :=
  match c with Ok _ => true | Raise _ => false end.

Fixpoint mapM {A B : Type} (f : A -> result B) (l : list A) : result (list B) :=
  match l with
  | [] => Ok []
  | a :: l' => b <- f a ;; bs <- mapM f l' ;; Ok (b :: bs)
  end.

(** ** Integers, ranges and sequences *)

Definition len {A : Type} (l : list A) : Z := Z.of_nat (length l).

(** [range(n)] and [range(0, n, step)]. *)
Fixpoint range_from (count : nat) (start : Z) : list Z :=
  match count with
  | O => []
  | S count' => start :: range_from count' (start + 1)
  end.

Definition range (n : Z) : list Z := range_from (Z.to_nat n) 0.

Definition range_step (n step : Z) : list Z :=
  map (fun k => step * k) (range ((n + step - 1) / step)).

(** [l[k]] with Python's negative indices; [IndexError] out of range. *)
Definition getitem {A : Type} (l : list A) (k : Z) : result A :=
  let k' := if k <? 0 then len l + k else k in
  if (k' <? 0) || (len l <=? k') then Raise IndexError
  else match nth_error l (Z.to_nat k') with
       | Some a => Ok a
       | None => Raise IndexError
       end.

(** [l[a:b]] for [0 <= a]: indices are clipped to the length. *)
Definition slice {A : Type} (l : list A) (a b : Z) : list A :=
  firstn (Z.to_nat (b - a)) (skipn (Z.to_nat a) l).

(** [buf[a:b] = v] on a [bytearray], for [0 <= a <= b]. *)
Definition set_slice {A : Type} (buf : list A) (a b : Z) (v : list A) : list A :=
  firstn (Z.to_nat a) buf ++ v ++ skipn (Z.to_nat (Z.max a b)) buf.

(** ** Bytes and 16-bit samples *)

Definition bytes : Set := list Byte.byte.

Definition byte_val (b : Byte.byte) : Z := Z.of_N (Byte.to_N b).

Definition byte_of (z : Z) : Byte.byte :=
  match Byte.of_N (Z.to_N (z mod 256)) with
  | Some b => b
  | None => Byte.x00
  end.

Definition int16_min : Z := -32768.
Definition int16_max : Z := 32767.

Definition in_int16 (v : Z) : bool := (int16_min <=? v) && (v <=? int16_max).

(** Two little-endian bytes read as a signed 16-bit integer:
    [struct.unpack('<h', ..)] and one element of [np.frombuffer(.., np.int16)]. *)
Definition int16_of_le (lo hi : Byte.byte) : Z :=
  let u := byte_val lo + 256 * byte_val hi in
  if u <? 32768 then u else u - 65536.

(** The two little-endian bytes of a 16-bit value. *)
Definition le_of_int16 (v : Z) : bytes :=
  [byte_of (Z.land v 255); byte_of (Z.land (Z.shiftr v 8) 255)].

(** [struct.pack('<h', v)]: [struct.error] outside the 16-bit range. *)
Definition pack_h (v : Z) : result bytes :=
  if in_int16 v then Ok (le_of_int16 v) else Raise StructError.

(** [struct.unpack('<h', b)[0]]: [struct.error] unless [b] has two bytes. *)
Definition unpack_h (b : bytes) : result Z :=
  match b with
  | [lo; hi] => Ok (int16_of_le lo hi)
  | _ => Raise StructError
  end.

(** [np.frombuffer(pcm_data, dtype=np.int16)]: [ValueError] when the size is
    not a multiple of the element size. *)
Fixpoint frombuffer_int16 (b : bytes) : result (list Z) :=
  match b with
  | [] => Ok []
  | lo :: hi :: r => xs <- frombuffer_int16 r ;; Ok (int16_of_le lo hi :: xs)
  | [_] => Raise ValueError
  end.

(** [arr.tobytes()] of an [np.int16] array. *)
Definition tobytes_int16 (a : list Z) : bytes := flat_map le_of_int16 a.

(** [np.zeros(n, dtype=np.int16)]: [ValueError] for a negative dimension. *)
Definition np_zeros (n : Z) : result (list Z) :=
  if n <? 0 then Raise ValueError else Ok (repeat 0 (Z.to_nat n)).

(** Storing a Python [int] into an [np.int16] array: [OverflowError] when it
    does not fit. *)
Definition store_int16 (v : Z) : result Z :=
  if in_int16 v then Ok v else Raise OverflowError.

(** ** Binary64 arithmetic *)

(** The double nearest to an integer (round to nearest, ties to even). *)
Definition float_of_Z (z : Z) : float :=
  SF2Prim (binary_normalize prec emax z 0 false).

Definition is_finite (f : float) : bool :=
  match Prim2SF f with
  | S754_zero _ | S754_finite _ _ _ => true
  | _ => false
  end.

(** [float(n)] of a Python [int]: [OverflowError] when too large. *)
Definition py_float (z : Z) : result float :=
  let f := float_of_Z z in
  if is_finite f then Ok f else Raise OverflowError.

(** [int(x)] of a float: truncation toward zero; [OverflowError] on an
    infinity and [ValueError] on a NaN. *)
Definition py_int (f : float) : result Z :=
  match Prim2SF f with
  | S754_zero _ => Ok 0
  | S754_finite s m e =>
      let v := if 0 <=? e then Zpos m * 2 ^ e else Zpos m / 2 ^ (- e) in
      Ok (if s then - v else v)
  | S754_infinity _ => Raise OverflowError
  | S754_nan => Raise ValueError
  end.

(** [x / y] on Python floats: [ZeroDivisionError] when [y] is zero. *)
Definition py_truediv (x y : float) : result float :=
  if (y =? 0)%float then Raise ZeroDivisionError else Ok (x / y)%float.

(** ** [resample_audio]: linear interpolation *)

(** [target_length = int(len(samples) * ratio)]. *)
Definition target_length (n : Z) (ratio : float) : result Z :=
  py_int (float_of_Z n * ratio)%float.

(** One iteration of the interpolation loop: the value stored in
    [resampled[i]]. *)
Definition resample_sample (samples : list Z) (ratio : float) (i : Z) : result Z :=
  src_idx_float <- py_truediv (float_of_Z i) ratio ;;
  src_idx_int <- py_int src_idx_float ;;
  let fraction := (src_idx_float - float_of_Z src_idx_int)%float in
  if len samples - 1 <=? src_idx_int then
    getitem samples (-1)
  else
    s0 <- getitem samples src_idx_int ;;
    s1 <- getitem samples (src_idx_int + 1) ;;
    v <- py_int ((1 - fraction) * float_of_Z s0 + fraction * float_of_Z s1)%float ;;
    store_int16 v.

(** The body of the [try] block. *)
Definition resample_audio_try (pcm_data : bytes) (src_rate target_rate : Z)
  : result bytes :=
  samples <- frombuffer_int16 pcm_data ;;
  ft <- py_float target_rate ;;
  fs <- py_float src_rate ;;
  ratio <- py_truediv ft fs ;;
  n <- target_length (len samples) ratio ;;
  np_zeros n ;;;
  resampled <- mapM (resample_sample samples ratio) (range n) ;;
  Ok (tobytes_int16 resampled).

Definition resample_audio (pcm_data : bytes) (src_rate target_rate : Z) : bytes :=
  if src_rate =? target_rate then pcm_data
  else try_except (resample_audio_try pcm_data src_rate target_rate)
                  (fun _ => pcm_data).

(** The samples of a buffer that is known to be well formed. *)
Definition samples_of (b : bytes) : list Z :=
  match frombuffer_int16 b with
  | Ok xs => xs
  | Raise _ => []
  end.

(** ** The [wave] module of the Python standard library

    [wave] is not part of the repository; the reader and writer below follow
    CPython's [Lib/wave.py] (with its chunk reader) for the calls the source
    makes: [wave.open(f, 'rb')] with the getters and [readframes], and
    [wave.open(f, 'wb')] with the setters and [writeframes] on an
    [io.BytesIO]. *)

Definition tag_RIFF : bytes := [Byte.x52; Byte.x49; Byte.x46; Byte.x46].
Definition tag_WAVE : bytes := [Byte.x57; Byte.x41; Byte.x56; Byte.x45].
Definition tag_fmt : bytes := [Byte.x66; Byte.x6d; Byte.x74; Byte.x20].
Definition tag_data : bytes := [Byte.x64; Byte.x61; Byte.x74; Byte.x61].

Definition bytes_eqb (a b : bytes) : bool :=
  if list_eq_dec Byte.byte_eq_dec a b then true else false.

(** Unsigned little-endian integers: [struct.pack('<H', v)] is
    [pack_uint 2 v], [struct.pack('<L', v)] is [pack_uint 4 v]. *)
Fixpoint le_bytes (n : nat) (v : Z) : bytes :=
  match n with
  | O => []
  | S n' => byte_of v :: le_bytes n' (v / 256)
  end.

Definition pack_uint (n : nat) (v : Z) : result bytes :=
  if (0 <=? v) && (v <? 256 ^ Z.of_nat n) then Ok (le_bytes n v)
  else Raise StructError.

Definition uint_of_le (b : bytes) : Z :=
  fold_right (fun x acc => byte_val x + 256 * acc) 0 b.

(** [struct.unpack_from] on a buffer that may be too short. *)
Definition unpack_uint (n : nat) (b : bytes) : result Z :=
  if len b <? Z.of_nat n then Raise StructError else Ok (uint_of_le (firstn n b)).

(** *** Reading *)

(** A chunk: its declared size and the number of bytes read so far. *)
Record chunk : Set := mkChunk { c_size : Z; c_read : Z }.

(** The outer RIFF chunk over the file: [r_file] holds the bytes of the file
    that follow the eight-byte chunk header. *)
Record riff : Set := mkRiff { r_file : bytes; r_chunk : chunk }.

(** [Chunk.read(size)] on the RIFF chunk, [0 <= size]. *)
Definition riff_read (r : riff) (size : Z) : bytes * riff :=
  let c := r_chunk r in
  if c_size c <=? c_read c then ([], r)
  else
    let size := Z.min size (c_size c - c_read c) in
    let data := slice (r_file r) (c_read c) (c_read c + size) in
    let rd := c_read c + len data in
    let rd' := if (rd =? c_size c) && Z.odd (c_size c)
               then rd + len (slice (r_file r) rd (rd + 1)) else rd in
    (data, mkRiff (r_file r) (mkChunk (c_size c) rd')).

(** [Chunk.seek(n, 1)] on the RIFF chunk. *)
Definition riff_seek_cur (r : riff) (n : Z) : result riff :=
  let c := r_chunk r in
  let pos := n + c_read c in
  if (pos <? 0) || (c_size c <? pos) then Raise RuntimeError
  else Ok (mkRiff (r_file r) (mkChunk (c_size c) pos)).

(** Opening a chunk inside the RIFF chunk: name and size. *)
Definition sub_open (r : riff) : result (bytes * chunk * riff) :=
  let '(name, r1) := riff_read r 4 in
  if len name <? 4 then Raise EOFError
  else
    let '(sz, r2) := riff_read r1 4 in
    match unpack_uint 4 sz with
    | Ok n => Ok (name, mkChunk n 0, r2)
    | Raise _ => Raise EOFError
    end.

(** [Chunk.read(size)] on an inner chunk. *)
Definition sub_read (r : riff) (c : chunk) (size : Z) : bytes * chunk * riff :=
  if c_size c <=? c_read c then ([], c, r)
  else
    let size := Z.min size (c_size c - c_read c) in
    let '(data, r1) := riff_read r size in
    let rd := c_read c + len data in
    if (rd =? c_size c) && Z.odd (c_size c) then
      let '(dummy, r2) := riff_read r1 1 in
      (data, mkChunk (c_size c) (rd + len dummy), r2)
    else (data, mkChunk (c_size c) rd, r1).

(** [Chunk.skip()] on an inner chunk (the RIFF chunk is seekable). *)
Definition sub_skip (r : riff) (c : chunk) : result riff :=
  let n := c_size c - c_read c in
  let n := if Z.odd (c_size c) then n + 1 else n in
  riff_seek_cur r n.

Record fmt_info : Set := mkFmt { f_nchannels : Z; f_framerate : Z; f_sampwidth : Z }.

Definition WAVE_FORMAT_PCM : Z := 1.

(** [Wave_read._read_fmt_chunk]. *)
Definition read_fmt_chunk (r : riff) (c : chunk) : result (fmt_info * chunk * riff) :=
  let '(d14, c1, r1) := sub_read r c 14 in
  if len d14 <? 14 then Raise EOFError
  else
    let wFormatTag := uint_of_le (slice d14 0 2) in
    let nchannels := uint_of_le (slice d14 2 4) in
    let framerate := uint_of_le (slice d14 4 8) in
    if wFormatTag =? WAVE_FORMAT_PCM then
      let '(d2, c2, r2) := sub_read r1 c1 2 in
      if len d2 <? 2 then Raise EOFError
      else
        let sampwidth := (uint_of_le d2 + 7) / 8 in
        if sampwidth =? 0 then Raise WaveError
        else if nchannels =? 0 then Raise WaveError
        else Ok (mkFmt nchannels framerate sampwidth, c2, r2)
    else Raise WaveError.

Record wave_reader : Set := mkReader {
  w_fmt : fmt_info;
  w_nframes : Z;
  w_data : chunk;
  w_riff : riff
}.

(** The chunk loop of [Wave_read.initfp]. Every iteration reads an
    eight-byte chunk header from the file, so [fuel] iterations suffice when
    [fuel] exceeds the length of the file. *)
Fixpoint read_chunks (fuel : nat) (r : riff) (fmt : option fmt_info)
  : result (option fmt_info * option (chunk * Z) * riff) :=
  match fuel with
  | O => Ok (fmt, None, r)
  | S fuel' =>
      match sub_open r with
      | Raise _ => Ok (fmt, None, r)
      | Ok (name, c, r1) =>
          if bytes_eqb name tag_fmt then
            x <- read_fmt_chunk r1 c ;;
            let '(f, c2, r2) := x in
            r3 <- sub_skip r2 c2 ;;
            read_chunks fuel' r3 (Some f)
          else if bytes_eqb name tag_data then
            match fmt with
            | None => Raise WaveError
            | Some f =>
                Ok (fmt, Some (c, c_size c / (f_nchannels f * f_sampwidth f)), r1)
            end
          else
            r3 <- sub_skip r1 c ;;
            read_chunks fuel' r3 fmt
      end
  end.

(** [wave.open(io.BytesIO(blob), 'rb')]. *)
Definition wave_open_read (blob : bytes) : result wave_reader :=
  let name := slice blob 0 4 in
  if len name <? 4 then Raise EOFError
  else match unpack_uint 4 (slice blob 4 8) with
  | Raise _ => Raise EOFError
  | Ok size =>
      let r := mkRiff (skipn 8 blob) (mkChunk size 0) in
      if negb (bytes_eqb name tag_RIFF) then Raise WaveError
      else
        let '(form, r1) := riff_read r 4 in
        if negb (bytes_eqb form tag_WAVE) then Raise WaveError
        else
          x <- read_chunks (S (length blob)) r1 None ;;
          match x with
          | (Some f, Some (c, n), r2) => Ok (mkReader f n c r2)
          | _ => Raise WaveError
          end
  end.

Definition getnchannels (w : wave_reader) : Z := f_nchannels (w_fmt w).
Definition getsampwidth (w : wave_reader) : Z := f_sampwidth (w_fmt w).
Definition getframerate (w : wave_reader) : Z := f_framerate (w_fmt w).
Definition getnframes (w : wave_reader) : Z := w_nframes w.

(** [Wave_read.readframes(nframes)], called once on a freshly opened file. *)
Definition readframes (w : wave_reader) (nframes : Z) : bytes :=
  if nframes =? 0 then []
  else
    let framesize := getnchannels w * getsampwidth w in
    let '(data, _, _) := sub_read (w_riff w) (w_data w) (nframes * framesize) in
    data.

(** *** Writing *)

Record wave_writer : Set := mkWriter {
  ww_nchannels : Z;
  ww_sampwidth : Z;
  ww_framerate : Z;
  ww_header : option bytes;
  ww_datalength : Z;
  ww_datawritten : Z;
  ww_payload : bytes
}.

(** [wave.open(f, 'wb')] followed by [setnchannels], [setsampwidth] and
    [setframerate]. *)
Definition wave_open_write (nchannels sampwidth framerate : Z) : result wave_writer :=
  if nchannels <? 1 then Raise WaveError
  else if (sampwidth <? 1) || (4 <? sampwidth) then Raise WaveError
  else if framerate <=? 0 then Raise WaveError
  else Ok (mkWriter nchannels sampwidth framerate None 0 0 []).

(** [Wave_write._write_header(initlength)]: the 44 bytes of the header. *)
Definition write_header (w : wave_writer) (initlength : Z) : result wave_writer :=
  let nch := ww_nchannels w in
  let sw := ww_sampwidth w in
  let rate := ww_framerate w in
  let nframes := initlength / (nch * sw) in
  let datalength := nframes * nch * sw in
  h1 <- pack_uint 4 (36 + datalength) ;;
  h2 <- pack_uint 4 16 ;;
  h3 <- pack_uint 2 WAVE_FORMAT_PCM ;;
  h4 <- pack_uint 2 nch ;;
  h5 <- pack_uint 4 rate ;;
  h6 <- pack_uint 4 (nch * rate * sw) ;;
  h7 <- pack_uint 2 (nch * sw) ;;
  h8 <- pack_uint 2 (sw * 8) ;;
  h9 <- pack_uint 4 datalength ;;
  Ok (mkWriter nch sw rate
        (Some (tag_RIFF ++ h1 ++ tag_WAVE ++ tag_fmt ++ h2 ++ h3 ++ h4 ++ h5
                 ++ h6 ++ h7 ++ h8 ++ tag_data ++ h9))
        datalength (ww_datawritten w) (ww_payload w)).

Definition ensure_header_written (w : wave_writer) (datasize : Z) : result wave_writer :=
  match ww_header w with
  | Some _ => Ok w
  | None => write_header w datasize
  end.

(** [Wave_write._patchheader]: the two length fields are rewritten. *)
Definition patchheader (w : wave_writer) : result wave_writer :=
  if ww_datawritten w =? ww_datalength w then Ok w
  else
    match ww_header w with
    | None => Raise OtherException
    | Some h =>
        l1 <- pack_uint 4 (36 + ww_datawritten w) ;;
        l2 <- pack_uint 4 (ww_datawritten w) ;;
        Ok (mkWriter (ww_nchannels w) (ww_sampwidth w) (ww_framerate w)
              (Some (set_slice (set_slice h 4 8 l1) 40 44 l2))
              (ww_datawritten w) (ww_datawritten w) (ww_payload w))
    end.

(** [Wave_write.writeframes(data)]. *)
Definition writeframes (w : wave_writer) (data : bytes) : result wave_writer :=
  w1 <- ensure_header_written w (len data) ;;
  let w2 := mkWriter (ww_nchannels w1) (ww_sampwidth w1) (ww_framerate w1)
              (ww_header w1) (ww_datalength w1)
              (ww_datawritten w1 + len data) (ww_payload w1 ++ data) in
  patchheader w2.

(** Leaving the [with] block ([Wave_write.close]) and [getvalue()] of the
    underlying [io.BytesIO]. *)
Definition wave_close_getvalue (w : wave_writer) : result bytes :=
  w1 <- ensure_header_written w 0 ;;
  w2 <- patchheader w1 ;;
  match ww_header w2 with
  | Some h => Ok (h ++ ww_payload w2)
  | None => Raise OtherException
  end.

(** A whole [with wave.open(buf, 'wb') as f: ...] block that sets the three
    parameters and writes the given pieces. *)
Definition wave_write_file (nchannels sampwidth framerate : Z) (pieces : list bytes)
  : result bytes :=
  w <- wave_open_write nchannels sampwidth framerate ;;
  w' <- fold_left (fun acc d => w0 <- acc ;; writeframes w0 d) pieces (Ok w) ;;
  wave_close_getvalue w'.

(** ** [extract_pcm_from_wav] *)

Fixpoint foldM {A B : Type} (f : B -> A -> result B) (l : list A) (b : B) : result B :=
  match l with
  | [] => Ok b
  | a :: l' => b' <- f b a ;; foldM f l' b'
  end.

(** One iteration of the stereo loop, at byte offset [i]. *)
Definition downmix_step (pcm_data : bytes) (mono_pcm : bytes) (i : Z) : result bytes :=
  if i + 3 <? len pcm_data then
    left_val <- unpack_h (slice pcm_data i (i + 2)) ;;
    right_val <- unpack_h (slice pcm_data (i + 2) (i + 4)) ;;
    let mixed := (left_val + right_val) / 2 in
    mixed_bytes <- pack_h mixed ;;
    Ok (set_slice mono_pcm (i / 2) (i / 2 + 2) mixed_bytes)
  else Ok mono_pcm.

(** The stereo loop over a zero-filled [bytearray(size)]. *)
Definition stereo_to_mono (pcm_data : bytes) (size : Z) : result bytes :=
  foldM (downmix_step pcm_data) (range_step (len pcm_data) 4)
        (repeat Byte.x00 (Z.to_nat size)).

Definition extract_pcm_from_wav_try (wav_data : bytes) : result bytes :=
  wav_file <- wave_open_read wav_data ;;
  let channels := getnchannels wav_file in
  let n_frames := getnframes wav_file in
  let pcm_data := readframes wav_file n_frames in
  if channels =? 2 then stereo_to_mono pcm_data (n_frames * 2)
  else Ok pcm_data.

Definition extract_pcm_from_wav (wav_data : bytes) : bytes :=
  try_except (extract_pcm_from_wav_try wav_data) (fun _ => wav_data).

(** ** numpy and scipy *)

(** Rounding a finite binary64 number to the nearest integer, ties to even. *)
Definition rint_Z (f : float) : Z :=
  match Prim2SF f with
  | S754_finite s m e =>
      let v :=
        if 0 <=? e then Zpos m * 2 ^ e
        else
          let d := 2 ^ (- e) in
          let q := Zpos m / d in
          let r := Zpos m mod d in
          if 2 * r <? d then q
          else if d <? 2 * r then q + 1
          else if Z.even q then q else q + 1 in
      if s then - v else v
  | _ => 0
  end.

(** [np.round(x)]: the float whose value is the nearest integer. *)
Definition np_round (f : float) : float :=
  match Prim2SF f with
  | S754_finite _ _ e => if 0 <=? e then f else float_of_Z (rint_Z f)
  | _ => f
  end.

Definition wrap16 (v : Z) : Z := (v + 32768) mod 65536 - 32768.

(** [x.astype(np.int16)] of a float. In range this is truncation. Out of
    range C leaves the conversion undefined; the model follows the usual
    x86-64 behaviour: conversion to a 32-bit integer, of which the low 16
    bits are kept, and zero for what does not fit in 32 bits or is not a
    number. *)
Definition astype_int16 (f : float) : Z :=
  match py_int f with
  | Ok t => if (- 2 ^ 31 <=? t) && (t <? 2 ^ 31) then wrap16 t else 0
  | Raise _ => 0
  end.

(** [np.abs] on an [np.int16] array wraps at [-32768]. *)
Definition np_abs16 (v : Z) : Z := wrap16 (Z.abs v).

(** [np.max]: [ValueError] on an empty array. *)
Definition np_max (a : list Z) : result Z :=
  match a with
  | [] => Raise ValueError
  | x :: r => Ok (fold_left Z.max r x)
  end.

(** Rounding a binary64 number to the nearest binary32 number: the result of
    storing into an [np.float32] array. *)
Definition round_f32 (f : float) : float :=
  match Prim2SF f with
  | S754_finite s m e => SF2Prim (binary_round 24 128 s m e)
  | _ => f
  end.

(** The element type of a float array. *)
Inductive fdtype : Set := F32 | F64.

Definition store (dt : fdtype) (f : float) : float :=
  match dt with F32 => round_f32 f | F64 => f end.

Definition np_pi : float := 0x1.921fb54442d18p+1%float.

(** The collaborators outside the repository whose results the code
    consumes: [np.sin], the import of [scipy.interpolate], the call
    [interp1d(x, y, kind='cubic', bounds_error=False, fill_value=fv)(x_new)],
    and the promotion rule of the installed NumPy: [np_weak_scalars] holds
    for NumPy 2 and later, where a Python float combined with an
    [np.float32] scalar is converted to [np.float32] and the operation is
    done in binary32; before, such an operation was done in binary64. *)
Record numpy_env : Type := mkEnv {
  np_sin : float -> result float;
  scipy_import : result unit;
  interp1d_cubic : list float -> list float -> float * float -> list float
                   -> result (list float);
  np_weak_scalars : bool
}.

(** A binary64 sine: reduction by multiples of two pi (split in three parts)
    and the Taylor polynomial of degree 29. On the arguments the source
    uses it is within 1e-15 of the mathematical sine. *)
Definition sin_coeffs : list float :=
  [ 0x1.0000000000000p+0; -0x1.5555555555555p-3; 0x1.1111111111111p-7;
    -0x1.a01a01a01a01ap-13; 0x1.71de3a556c734p-19; -0x1.ae64567f544e4p-26;
    0x1.6124613a86d09p-33; -0x1.ae7f3e733b81fp-41; 0x1.952c77030ad4ap-49;
    -0x1.2f49b46814157p-57; 0x1.71b8ef6dcf572p-66; -0x1.761b41316381ap-75;
    0x1.3f3ccdd165fa9p-84; -0x1.d1ab1c2dccea3p-94; 0x1.259f98b4358adp-103 ]%float.

Definition sin_model (x : float) : float :=
  let k := float_of_Z (rint_Z (x / 0x1.921fb54442d18p+2)) in
  let r := (((x - k * 0x1.92p+2) - k * 0x1.fb54442cp-10)
            - k * 0x1.18469898cc517p-42)%float in
  let r2 := (r * r)%float in
  (fold_right (fun c acc => acc * r2 + c) 0 sin_coeffs * r)%float.

(** The cubic interpolant through exactly four knots: scipy's not-a-knot
    spline has a single polynomial piece there, the cubic through the four
    points (Lagrange form). Outside the knots the fill values are returned. *)
Definition lagrange4 (x y : list float) (fv : float * float) (t : float) : float :=
  match x, y with
  | [x0; x1; x2; x3], [y0; y1; y2; y3] =>
      if (t <? x0)%float then fst fv
      else if (x3 <? t)%float then snd fv
      else
        (y0 * ((t - x1) * (t - x2) * (t - x3)) / ((x0 - x1) * (x0 - x2) * (x0 - x3))
         + y1 * ((t - x0) * (t - x2) * (t - x3)) / ((x1 - x0) * (x1 - x2) * (x1 - x3))
         + y2 * ((t - x0) * (t - x1) * (t - x3)) / ((x2 - x0) * (x2 - x1) * (x2 - x3))
         + y3 * ((t - x0) * (t - x1) * (t - x2)) / ((x3 - x0) * (x3 - x1) * (x3 - x2)))%float
  | _, _ => 0%float
  end.

Definition interp1d_four_knots (x y : list float) (fv : float * float)
  (x_new : list float) : result (list float) :=
  if (length x =? 4)%nat && (length y =? 4)%nat
  then Ok (map (lagrange4 x y fv) x_new)
  else Raise ValueError.

(** An installation with scipy, restricted to four-sample inputs. *)
Definition env_scipy : numpy_env :=
  mkEnv (fun x => Ok (sin_model x)) (Ok tt) interp1d_four_knots true.

(** An installation without scipy: the import raises [ImportError]. *)
Definition env_no_scipy : numpy_env :=
  mkEnv (fun x => Ok (sin_model x)) (Raise ImportError)
        (fun _ _ _ _ => Raise NameError) true.

(** An installation in which scipy imports but the interpolation call
    itself raises [ImportError]: the case the inner handler catches. *)
Definition env_late_import_error : numpy_env :=
  mkEnv (fun x => Ok (sin_model x)) (Ok tt) (fun _ _ _ _ => Raise ImportError)
        true.

(** An installation in which every call into numpy's sine raises. *)
Definition env_broken : numpy_env :=
  mkEnv (fun _ => Raise OtherException) (Raise ImportError)
        (fun _ _ _ _ => Raise NameError) true.

(** ** [fix_audio_for_unity] *)

(** [a / b] on Python [int]s. Python rounds the exact quotient once; the
    quotient of the two operands converted to binary64 is the same number
    whenever both conversions are exact, that is for operands of absolute
    value up to 2^53, which covers the byte counts, frame counts and rates
    of the buffers and files considered here. Beyond that range the
    operands are rounded first and the last bit of the quotient can differ
    from Python's. *)
Definition py_int_truediv (a b : Z) : result float :=
  py_truediv (float_of_Z a) (float_of_Z b).

Definition nth_float (a : list float) (k : Z) : float :=
  nth (Z.to_nat k) a 0%float.

(** The linear interpolation of the [except (ImportError, NameError)]
    branch, on the normalised [np.float32] samples. The two weights are
    Python floats. With weak scalars (NumPy 2 and later) each weight is
    converted to [np.float32] and the two products and their sum are
    binary32 operations; a binary32 product or sum is the binary64 one
    rounded to binary32. Without, the products and the sum are taken in
    binary64 and the result is rounded when it is stored into the
    [np.float32] array. *)
Definition linear_fallback_sample (weak : bool) (float_samples : list float)
  (ratio : float) (i : Z) : result float :=
  let src_idx := (float_of_Z i * ratio)%float in
  src_idx_floor <- py_int src_idx ;;
  let fraction := (src_idx - float_of_Z src_idx_floor)%float in
  if len float_samples - 1 <=? src_idx_floor then
    getitem float_samples (-1)
  else
    a <- getitem float_samples src_idx_floor ;;
    b <- getitem float_samples (src_idx_floor + 1) ;;
    if weak then
      Ok (round_f32 (round_f32 (round_f32 (1 - fraction) * a)
                     + round_f32 (round_f32 fraction * b))%float)
    else Ok (round_f32 ((1 - fraction) * a + fraction * b)%float).

Definition linear_fallback (weak : bool) (float_samples : list float)
  (source_rate unity_rate n : Z) : result (list float) :=
  np_zeros n ;;;
  fs <- py_float source_rate ;;
  fu <- py_float unity_rate ;;
  ratio <- py_truediv fs fu ;;
  mapM (linear_fallback_sample weak float_samples ratio) (range n).

(** The boxcar filter: [convolve(a, ones(3)/3, mode='same')] copied into
    [a[3:-3]]. *)
Definition third : float := (1 / 3)%float.

Definition smoothed_at (a : list float) (n : Z) : float :=
  (nth_float a (n - 1) * third + nth_float a n * third
   + nth_float a (n + 1) * third)%float.

Definition smooth (dt : fdtype) (a : list float) : list float :=
  if 10 <? len a then
    map (fun n => if (3 <=? n) && (n <? len a - 3)
                  then store dt (smoothed_at a n) else nth_float a n)
        (range (len a))
  else a.

(** Lines "convert back to int16" and "normalize to avoid clipping". *)
Definition to_int16 (dt : fdtype) (resampled_float : list float) : result (list Z) :=
  let resampled :=
    map (fun v => astype_int16 (np_round (store dt (v * 32767)%float)))
        resampled_float in
  max_val <- np_max (map np_abs16 resampled) ;;
  if 32767 <? max_val then
    let scale_factor := (32767 / float_of_Z max_val)%float in
    Ok (map (fun r => astype_int16 (np_round (float_of_Z r * scale_factor)%float))
            resampled)
  else Ok resampled.

(** The inner [try]: cubic interpolation, or the linear branch when the
    call raises [ImportError] or [NameError]. *)
Definition interpolate_stage (E : numpy_env) (float_samples original_time target_time
  : list float) (source_rate unity_rate n : Z) : result (fdtype * list float) :=
  let cubic :=
    f0 <- getitem float_samples 0 ;;
    f1 <- getitem float_samples (-1) ;;
    interp1d_cubic E original_time float_samples (f0, f1) target_time in
  match cubic with
  | Ok r => Ok (F64, r)
  | Raise ImportError | Raise NameError =>
      r <- linear_fallback (np_weak_scalars E) float_samples source_rate
             unity_rate n ;;
      Ok (F32, r)
  | Raise e => Raise e
  end.

(** The first part of the body of the outer [try]: the float samples after
    interpolation and smoothing, with the element type of their array. *)
Definition fix_audio_floats (E : numpy_env) (pcm_data : bytes)
  (source_rate unity_rate : Z) : result (fdtype * list float) :=
  samples <- frombuffer_int16 pcm_data ;;
  let float_samples := map (fun s => (float_of_Z s / 32768)%float) samples in
  let original_time :=
    map (fun k => (float_of_Z k / float_of_Z source_rate)%float)
        (range (len float_samples)) in
  q <- py_int_truediv (len float_samples * unity_rate) source_rate ;;
  n <- py_int q ;;
  let target_time :=
    map (fun k => (float_of_Z k / float_of_Z unity_rate)%float) (range n) in
  scipy_import E ;;;
  x <- interpolate_stage E float_samples original_time target_time
         source_rate unity_rate n ;;
  let '(dt, resampled_float) := x in
  Ok (dt, smooth dt resampled_float).

(** The body of the outer [try]. *)
Definition fix_audio_try (E : numpy_env) (pcm_data : bytes)
  (source_rate unity_rate : Z) : result bytes :=
  x <- fix_audio_floats E pcm_data source_rate unity_rate ;;
  let '(dt, resampled_float) := x in
  resampled <- to_int16 dt resampled_float ;;
  Ok (tobytes_int16 resampled).

(** One iteration of the loop of the "simple resampling" fallback; an index
    past the end leaves the zero of [np.zeros]. *)
Definition simple_sample (samples : list Z) (ratio : float) (i : Z) : result Z :=
  let src_idx := (float_of_Z i * ratio)%float in
  src_idx_floor <- py_int src_idx ;;
  if src_idx_floor <? len samples - 1 then getitem samples src_idx_floor
  else if src_idx_floor <? len samples then getitem samples src_idx_floor
  else Ok 0.

(** The body of the [try] inside the outer handler. *)
Definition simple_resample_try (pcm_data : bytes) (source_rate unity_rate : Z)
  : result bytes :=
  samples <- frombuffer_int16 pcm_data ;;
  fs <- py_float source_rate ;;
  fu <- py_float unity_rate ;;
  ratio <- py_truediv fs fu ;;
  q <- py_truediv (float_of_Z (len samples)) ratio ;;
  n <- py_int q ;;
  np_zeros n ;;;
  resampled <- mapM (simple_sample samples ratio) (range n) ;;
  Ok (tobytes_int16 resampled).

Definition fix_audio_for_unity (E : numpy_env) (pcm_data : bytes)
  (source_rate unity_rate : Z) : bytes :=
  if source_rate =? unity_rate then pcm_data
  else
    try_except (fix_audio_try E pcm_data source_rate unity_rate)
      (fun _ =>
         try_except (simple_resample_try pcm_data source_rate unity_rate)
           (fun _ => pcm_data)).

(** ** [create_basic_unity_compatible_audio] *)

(** The value written for sample [i] of the one-second test tone. *)
Definition basic_tone_value (E : numpy_env) (unity_rate num_samples i : Z)
  : result Z :=
  t <- py_int_truediv i unity_rate ;;
  value <- np_sin E (2 * np_pi * 440 * t)%float ;;
  let value := (value * 0x1.999999999999ap-4)%float in
  fu <- py_float unity_rate ;;
  fade_samples <- py_int (fu * 0x1.999999999999ap-5)%float ;;
  value <-
    (if i <? fade_samples then
       e <- py_int_truediv i fade_samples ;; Ok (value * e)%float
     else if num_samples - fade_samples <? i then
       e <- py_int_truediv (num_samples - i) fade_samples ;; Ok (value * e)%float
     else Ok value) ;;
  py_int (value * 3276)%float.

(** The body of the [try]; [pcm_data] and [source_rate] are ignored by the
    source. *)
Definition create_basic_try (E : numpy_env) (unity_rate : Z) : result bytes :=
  fu <- py_float unity_rate ;;
  num_samples <- py_int (fu * 1)%float ;;
  (if num_samples * 2 <? 0 then Raise ValueError else Ok tt) ;;;
  values <- mapM (basic_tone_value E unity_rate num_samples) (range num_samples) ;;
  Ok (flat_map le_of_int16 values).

(** [np.zeros(100, dtype=np.int16).tobytes()]. *)
Definition silence : bytes := repeat Byte.x00 200.

Definition create_basic_unity_compatible_audio (E : numpy_env) (pcm_data : bytes)
  (source_rate unity_rate : Z) : bytes :=
  try_except (create_basic_try E unity_rate) (fun _ => silence).

(** ** [synthesize_speech] *)

(** The [accept] argument of the two requests. *)
Inductive accept : Set := audio_wav | audio_l16_rate_44100.

(** The Watson client: [synthesize(text, accept, voice).get_result().content]
    or the exception the request raises. *)
Record synthesizer : Type := mkSynth {
  synthesize : bytes -> accept -> result bytes
}.

(** [int(np.sin(2 * np.pi * freq * i / 44100) * amp)]. *)
Definition tone_value (E : numpy_env) (freq amp i : Z) : result Z :=
  s <- np_sin E (2 * np_pi * float_of_Z freq * float_of_Z i / 44100)%float ;;
  py_int (s * float_of_Z amp)%float.

(** The loop that fills [bytearray(samples * 2)] with the low and the high
    byte of each value, in index order. *)
Definition tone_data (E : numpy_env) (freq amp samples : Z) : result bytes :=
  values <- mapM (tone_value E freq amp) (range samples) ;;
  Ok (flat_map le_of_int16 values).

(** The analysis block: a stereo WAV is rewritten as a mono WAV. *)
Definition to_mono_wav (wav_data : bytes) : result bytes :=
  wav_file <- wave_open_read wav_data ;;
  let channels := getnchannels wav_file in
  let sample_width := getsampwidth wav_file in
  let framerate := getframerate wav_file in
  let n_frames := getnframes wav_file in
  py_int_truediv n_frames framerate ;;;
  if channels =? 2 then
    stereo <- wave_open_read wav_data ;;
    let stereo_pcm := readframes stereo (getnframes stereo) in
    mono <- wave_open_write 1 sample_width framerate ;;
    mono_pcm <- stereo_to_mono stereo_pcm (len stereo_pcm / 2) ;;
    mono' <- writeframes mono mono_pcm ;;
    wave_close_getvalue mono'
  else Ok wav_data.

(** The 220-sample pilot tone as a WAV file. *)
Definition make_pilot_wav (E : numpy_env) : result bytes :=
  pilot <- wave_open_write 1 2 44100 ;;
  data <- tone_data E 440 3276 220 ;;
  pilot' <- writeframes pilot data ;;
  wave_close_getvalue pilot'.

(** The pilot block: what its [try] body returns. *)
Definition add_pilot_tone (E : numpy_env) (wav_data : bytes) : result bytes :=
  pilot_wav <- make_pilot_wav E ;;
  pilot <- wave_open_read pilot_wav ;;
  speech <- wave_open_read wav_data ;;
  if negb (getnchannels pilot =? getnchannels speech)
     || negb (getsampwidth pilot =? getsampwidth speech)
     || negb (getframerate pilot =? getframerate speech)
  then Ok wav_data
  else
    let pilot_pcm := readframes pilot (getnframes pilot) in
    let speech_pcm := readframes speech (getnframes speech) in
    combined <- wave_open_write (getnchannels speech) (getsampwidth speech)
                  (getframerate speech) ;;
    c1 <- writeframes combined pilot_pcm ;;
    c2 <- writeframes c1 speech_pcm ;;
    wave_close_getvalue c2.

(** Step 1: the WAV request. Only the request itself can make it fail: the
    analysis and pilot blocks have handlers of their own. *)
Definition wav_stage (E : numpy_env) (s : synthesizer) (text : bytes) : result bytes :=
  wav_data <- synthesize s text audio_wav ;;
  let wav_data := try_except (to_mono_wav wav_data) (fun _ => wav_data) in
  Ok (try_except (add_pilot_tone E wav_data) (fun _ => wav_data)).

(** Step 2: raw PCM at 44100 Hz wrapped in a WAV container. *)
Definition pcm_stage (s : synthesizer) (text : bytes) : result bytes :=
  pcm_data <- synthesize s text audio_l16_rate_44100 ;;
  wave_write_file 1 2 44100 [pcm_data].

(** Step 3: a 0.1 s beep at 880 Hz. *)
Definition beep_stage (E : numpy_env) : result bytes :=
  beep <- wave_open_write 1 2 44100 ;;
  data <- tone_data E 880 16383 4410 ;;
  beep' <- writeframes beep data ;;
  wave_close_getvalue beep'.

(** [None] is Python's [None]. The diagnostic file dumps, each inside a
    handler of its own, do not influence the result and are left out. *)
Definition synthesize_speech (E : numpy_env) (text : bytes)
  (synth : option synthesizer) : option bytes :=
  match synth with
  | None => None
  | Some s =>
      match wav_stage E s text with
      | Ok wav => Some wav
      | Raise _ =>
          match pcm_stage s text with
          | Ok wav => Some wav
          | Raise _ =>
              match beep_stage E with
              | Ok wav => Some wav
              | Raise _ => None
              end
          end
      end
  end.

(** ** The wording of the specification, for comparison *)

(** [round(a / b)] on exact rationals for [0 < b]: the nearest integer, a
    tie going to the even one. *)
Definition round_div (a b : Z) : Z :=
  let q := a / b in
  let r := a mod b in
  if 2 * r <? b then q
  else if b <? 2 * r then q + 1
  else if Z.even q then q else q + 1.

(** "converts sample count from [len(source)] to
    [round(len(source) * targetRate / sourceRate)]". *)
Definition spec_target_length (n src_rate target_rate : Z) : Z :=
  round_div (n * target_rate) src_rate.

(** "Output sample = [round((1-frac)*s[i0] + frac*s[i0+1])], clamped to the
    last sample when [i0 >= len(s)-1]". *)
Definition spec_fast_sample (samples : list Z) (ratio : float) (i : Z) : result Z :=
  p <- py_truediv (float_of_Z i) ratio ;;
  i0 <- py_int p ;;
  let frac := (p - float_of_Z i0)%float in
  if len samples - 1 <=? i0 then getitem samples (-1)
  else
    s0 <- getitem samples i0 ;;
    s1 <- getitem samples (i0 + 1) ;;
    Ok (rint_Z ((1 - frac) * float_of_Z s0 + frac * float_of_Z s1)%float).

(** "the arithmetic mean of the left and right samples ... truncating
    division": the quotient rounded toward zero. *)
Definition spec_mix (left_val right_val : Z) : Z :=
  Z.quot (left_val + right_val) 2.

(** The mono samples the stereo loop produces from interleaved samples:
    [(left + right) // 2] per frame, Python's floor division. *)
Fixpoint mix_pairs (samples : list Z) : list Z :=
  match samples with
  | l :: r :: rest => (l + r) / 2 :: mix_pairs rest
  | _ => []
  end.

(** The 36 bytes of a canonical WAV file between the RIFF chunk header and
    the payload: the form tag, the format chunk and the data chunk header. *)
Definition riff_body_header (nchannels sampwidth framerate datalength : Z) : bytes :=
  tag_WAVE ++ tag_fmt ++ le_bytes 4 16 ++ le_bytes 2 WAVE_FORMAT_PCM
  ++ le_bytes 2 nchannels ++ le_bytes 4 framerate
  ++ le_bytes 4 (nchannels * framerate * sampwidth)
  ++ le_bytes 2 (nchannels * sampwidth) ++ le_bytes 2 (sampwidth * 8)
  ++ tag_data ++ le_bytes 4 datalength.

(** The 44-byte header of a canonical WAV file. *)
Definition wav_header (nchannels sampwidth framerate datalength : Z) : bytes :=
  tag_RIFF ++ le_bytes 4 (36 + datalength)
  ++ riff_body_header nchannels sampwidth framerate datalength.

(** "for any valid PcmBuffer/AudioFormat pair": one or two channels, a
    positive rate, a payload made of whole 16-bit frames, and a byte rate
    and a file size that fit the 32-bit fields of the container. *)
Definition valid_pcm_format (nchannels framerate : Z) (pcm : bytes) : Prop :=
  (nchannels = 1 \/ nchannels = 2) /\
  0 < framerate /\
  nchannels * framerate * 2 < 2 ^ 32 /\
  len pcm mod (nchannels * 2) = 0 /\
  36 + len pcm < 2 ^ 32.

(** "all floating intermediate values are clamped into [-1,1] before
    rescaling". *)
Definition clamp_unit (v : float) : float :=
  if (v <? -1)%float then (-1)%float
  else if (1 <? v)%float then 1%float
  else v.

Definition spec_to_int16 (resampled_float : list float) : list Z :=
  map (fun v => rint_Z (clamp_unit v * 32767)%float) resampled_float.


(** ** Scenario inputs *)

(** 100 mono samples of the constant 1000. *)
Definition scenario_pcm : bytes := tobytes_int16 (repeat 1000 100).

(** Four samples whose cubic interpolant overshoots between the two peaks. *)
Definition overshoot_pcm : bytes := tobytes_int16 [0; 32767; 32767; 0].


(** A client whose every request raises. *)
Definition failing_synthesizer : synthesizer :=
  mkSynth (fun _ _ => Raise ApiException).

(** The stereo buffer of the two frames (100,200) and (300,400). *)
Definition scenario_stereo : bytes := tobytes_int16 [100; 200; 300; 400].

(** A WAV file written with the given channel count, 16-bit samples and
    44100 Hz around a payload; the empty file if writing fails. *)
Definition wav_of (nchannels : Z) (pcm : bytes) : bytes :=
  match wave_write_file nchannels 2 44100 [pcm] with
  | Ok blob => blob
  | Raise _ => []
  end.

(** ** [verify_pcm_format] *)

(** The ten two-byte slices that the logging loop unpacks when the buffer
    holds at least twenty bytes. *)
Definition first_ten_samples (pcm_data : bytes) : result (list Z) :=
  mapM (fun i => unpack_h (slice pcm_data i (i + 2))) (range_step 20 2).

(** The function has no handler of its own: the division by the expected
    rate can raise. The messages written to stderr are left out. *)
Definition verify_pcm_format (pcm_data : bytes) (expected_sample_rate : Z)
  : result bytes :=
  let samples := len pcm_data / 2 in
  py_int_truediv samples expected_sample_rate ;;;
  (if 20 <=? len pcm_data then first_ten_samples pcm_data else Ok []) ;;;
  Ok pcm_data.

(** ** [initialize_speech_synthesizer] *)

(** The truth value of what [os.environ.get] returns: [None] and the empty
    string are false. *)
Definition truthy (v : option String.string) : bool :=
  match v with
  | Some s => negb (String.eqb s String.EmptyString)
  | None => false
  end.

(** [a or b]. *)
Definition py_or (a b : option String.string) : option String.string :=
  if truthy a then a else b.

(** [environ] is [os.environ.get]; [connect api_key service_url] stands for
    the body of the [try]: building the authenticator and the client,
    setting the service URL and listing the voices, with the client as its
    result or the exception raised on the way. *)
Definition initialize_speech_synthesizer
  (environ : String.string -> option String.string)
  (connect : String.string -> String.string -> result synthesizer)
  : option synthesizer :=
  let api_key := py_or (environ "IBM_TTS_API_KEY"%string)
                       (environ "IBM_API_KEY"%string) in
  let service_url := environ "IBM_TTS_SERVICE_URL"%string in
  if negb (truthy api_key) then None
  else if negb (truthy service_url) then None
  else
    match api_key, service_url with
    | Some k, Some u =>
        match connect k u with
        | Ok text_to_speech => Some text_to_speech
        | Raise _ => None
        end
    | _, _ => None
    end.

(** ** [DebugAudioSource.read] of the speech-to-text service *)

(** What one call of [self._input.read(1024)] does: it returns a chunk
    (empty when no data is available) or raises. *)
Inductive input_event : Set :=
| Chunk (data : bytes)
| BrokenPipe
| InputError.

(** The audio source: the outcomes of the reads of stdin still to come, the
    buffer, the byte counter and the recording flag. The time stamps are
    left out. *)
Record audio_source : Set := mkSource {
  src_input : list input_event;
  src_buffer : bytes;
  src_bytes_read : Z;
  src_is_recording : bool
}.

(** The position at which [buf[:size]] and [buf[size:]] cut a buffer of
    length [n], for any integer [size]. *)
Definition cut_index (n size : Z) : nat :=
  Z.to_nat (if size <? 0 then Z.max 0 (n + size) else Z.min size n).

(** "Return data from the buffer". *)
Definition source_deliver (s : audio_source) (size : Z) : bytes * audio_source :=
  match src_buffer s with
  | [] => ([], s)
  | _ :: _ =>
      let k := cut_index (len (src_buffer s)) size in
      (firstn k (src_buffer s),
       mkSource (src_input s) (skipn k (src_buffer s)) (src_bytes_read s)
                (src_is_recording s))
  end.

(** [DebugAudioSource.read(size)]. When stdin is exhausted its [read]
    returns the empty chunk. *)
Definition source_read (s : audio_source) (size : Z) : bytes * audio_source :=
  if len (src_buffer s) <? size then
    match src_input s with
    | [] => source_deliver s size
    | Chunk chunk :: rest =>
        match chunk with
        | [] =>
            source_deliver
              (mkSource rest (src_buffer s) (src_bytes_read s) (src_is_recording s))
              size
        | _ :: _ =>
            source_deliver
              (mkSource rest (src_buffer s ++ chunk)
                        (src_bytes_read s + len chunk) (src_is_recording s))
              size
        end
    | BrokenPipe :: rest =>
        ([], mkSource rest (src_buffer s) (src_bytes_read s) false)
    | InputError :: rest =>
        ([], mkSource rest (src_buffer s) (src_bytes_read s) (src_is_recording s))
    end
  else source_deliver s size.

(** Successive calls of [read] with the given sizes: what each returned,
    and the source afterwards. *)
Fixpoint source_reads (s : audio_source) (sizes : list Z)
  : list bytes * audio_source :=
  match sizes with
  | [] => ([], s)
  | size :: sizes' =>
      let '(out, s1) := source_read s size in
      let '(outs, s2) := source_reads s1 sizes' in
      (out :: outs, s2)
  end.

(** The bytes of the chunks among some outcomes of reads of stdin. *)
Definition chunk_bytes (events : list input_event) : bytes :=
  flat_map (fun ev => match ev with Chunk d => d | _ => [] end) events.

(** ** Parameters of a WAV file *)

(** The parameters the writer accepts and can put in a header. *)
Definition writable (nch sw rate : Z) : Prop :=
  1 <= nch /\ 1 <= sw <= 4 /\ 0 < rate /\
  nch * sw < 65536 /\ nch * rate * sw < 2 ^ 32.

(** Whether an outcome of a read of stdin is the broken pipe. *)
Definition is_broken_pipe (ev : input_event) : bool :=
  match ev with BrokenPipe => true | _ => false end.

(** * Properties *)

(** ** The monad and the list helpers *)

Lemma bind_ok {A B : Type} (c : result A) (k : A -> result B) (b : B) :
  bind c k = Ok b -> exists a, c = Ok a /\ k a = Ok b.
Proof.
  destruct c as [a|e]; simpl; intros H; [exists a; auto | discriminate].
Qed.

Ltac inv_bind H :=
  let a := fresh "a" in
  let Ha := fresh "Ha" in
  apply bind_ok in H; destruct H as (a & Ha & H).

Tactic Notation "bind_inv" hyp(H) "as" ident(a) ident(Ha) :=
  apply bind_ok in H; destruct H as (a & Ha & H).

Lemma mapM_length {A B : Type} (f : A -> result B) (l : list A) (r : list B) :
  mapM f l = Ok r -> length r = length l.
Proof.
  revert r; induction l as [|a l IH]; simpl; intros r H.
  - injection H as <-; reflexivity.
  - inv_bind H. inv_bind H. injection H as <-. simpl. f_equal. now apply IH.
Qed.

Lemma mapM_nth {A B : Type} (f : A -> result B) (l : list A) (r : list B) :
  mapM f l = Ok r ->
  forall (i : nat) (da : A) (db : B), (i < length l)%nat ->
    f (nth i l da) = Ok (nth i r db).
Proof.
  revert r; induction l as [|a l IH]; simpl; intros r H i da db Hi.
  - lia.
  - inv_bind H. inv_bind H. injection H as <-.
    destruct i as [|i]; simpl; [assumption|].
    apply IH; [assumption | lia].
Qed.

Lemma mapM_Forall {A B : Type} (f : A -> result B) (P : B -> Prop) (l : list A)
  (r : list B) :
  (forall a b, f a = Ok b -> P b) -> mapM f l = Ok r -> Forall P r.
Proof.
  intros Hf; revert r; induction l as [|a l IH]; simpl; intros r H.
  - injection H as <-; constructor.
  - inv_bind H. inv_bind H. injection H as <-. constructor; eauto.
Qed.

Lemma range_from_length (count : nat) (start : Z) :
  length (range_from count start) = count.
Proof. revert start; induction count; intros; simpl; auto. Qed.

Lemma range_from_nth (count : nat) (start : Z) (i : nat) (d : Z) :
  (i < count)%nat -> nth i (range_from count start) d = start + Z.of_nat i.
Proof.
  revert start i; induction count as [|c IH]; intros start i Hi; [lia|].
  destruct i as [|i]; cbn [range_from nth].
  - lia.
  - rewrite IH by lia. lia.
Qed.

Lemma range_length (n : Z) : length (range n) = Z.to_nat n.
Proof. apply range_from_length. Qed.

Lemma range_nth (n : Z) (i : nat) (d : Z) :
  (i < Z.to_nat n)%nat -> nth i (range n) d = Z.of_nat i.
Proof. intros Hi. unfold range. now rewrite range_from_nth. Qed.

(** ** Bytes and samples *)

Lemma byte_val_range (b : Byte.byte) : 0 <= byte_val b < 256.
Proof.
  unfold byte_val. pose proof (Byte.to_N_bounded b). lia.
Qed.

Lemma byte_val_of (z : Z) : byte_val (byte_of z) = z mod 256.
Proof.
  unfold byte_of, byte_val.
  pose proof (Z.mod_pos_bound z 256 ltac:(lia)) as Hm.
  destruct (Byte.of_N (Z.to_N (z mod 256))) as [b|] eqn:E.
  - apply Byte.to_of_N in E. rewrite E. lia.
  - apply Byte.of_N_None_iff in E. lia.
Qed.

Lemma byte_of_val (b : Byte.byte) : byte_of (byte_val b) = b.
Proof.
  unfold byte_of. pose proof (byte_val_range b) as Hb.
  rewrite Z.mod_small by assumption.
  unfold byte_val. rewrite N2Z.id, Byte.of_to_N. reflexivity.
Qed.

Lemma int16_of_le_range (lo hi : Byte.byte) :
  int16_min <= int16_of_le lo hi <= int16_max.
Proof.
  unfold int16_of_le, int16_min, int16_max.
  pose proof (byte_val_range lo); pose proof (byte_val_range hi).
  cbv zeta. destruct (Z.ltb_spec (byte_val lo + 256 * byte_val hi) 32768); lia.
Qed.

Lemma in_int16_iff (v : Z) : in_int16 v = true <-> int16_min <= v <= int16_max.
Proof. unfold in_int16. rewrite andb_true_iff, !Z.leb_le. tauto. Qed.

Lemma land_255 (v : Z) : Z.land v 255 = v mod 256.
Proof. change 255 with (Z.ones 8). rewrite Z.land_ones by lia. reflexivity. Qed.

Lemma int16_of_le_of (v : Z) :
  int16_min <= v <= int16_max ->
  int16_of_le (byte_of (Z.land v 255)) (byte_of (Z.land (Z.shiftr v 8) 255)) = v.
Proof.
  unfold int16_min, int16_max, int16_of_le. intros Hv.
  rewrite !byte_val_of, !land_255, Z.shiftr_div_pow2 by lia.
  rewrite Z.mod_mod by lia. change (2 ^ 8) with 256.
  rewrite (Z.mod_mod (v / 256)) by lia.
  pose proof (Z.div_mod v 256 ltac:(lia)) as Hdm.
  pose proof (Z.mod_pos_bound v 256 ltac:(lia)) as Hlo.
  assert (Hq : -128 <= v / 256 <= 127) by lia.
  cbv zeta.
  destruct (Z_lt_le_dec (v / 256) 0) as [Hneg|Hpos].
  - replace ((v / 256) mod 256) with (v / 256 + 256)
      by (apply Z.mod_unique with (q := -1); lia).
    destruct (Z.ltb_spec (v mod 256 + 256 * (v / 256 + 256)) 32768); lia.
  - rewrite (Z.mod_small (v / 256)) by lia.
    destruct (Z.ltb_spec (v mod 256 + 256 * (v / 256)) 32768); lia.
Qed.

Lemma le_of_int16_of_le (lo hi : Byte.byte) :
  le_of_int16 (int16_of_le lo hi) = [lo; hi].
Proof.
  unfold le_of_int16, int16_of_le.
  pose proof (byte_val_range lo) as Hl; pose proof (byte_val_range hi) as Hh.
  cbv zeta. rewrite !land_255, Z.shiftr_div_pow2 by lia. change (2 ^ 8) with 256.
  assert (E : forall u, u = byte_val lo + 256 * byte_val hi \/
                        u = byte_val lo + 256 * byte_val hi - 65536 ->
                        u mod 256 = byte_val lo /\ (u / 256) mod 256 = byte_val hi).
  { intros u [-> | ->].
    - split.
      + symmetry; apply Z.mod_unique with (q := byte_val hi); lia.
      + replace ((byte_val lo + 256 * byte_val hi) / 256) with (byte_val hi)
          by (apply Z.div_unique with (r := byte_val lo); lia).
        apply Z.mod_small; lia.
    - split.
      + symmetry; apply Z.mod_unique with (q := byte_val hi - 256); lia.
      + replace ((byte_val lo + 256 * byte_val hi - 65536) / 256)
          with (byte_val hi - 256)
          by (apply Z.div_unique with (r := byte_val lo); lia).
        symmetry; apply Z.mod_unique with (q := -1); lia. }
  destruct (Z.ltb_spec (byte_val lo + 256 * byte_val hi) 32768).
  - destruct (E _ (or_introl eq_refl)) as [-> ->]. now rewrite !byte_of_val.
  - destruct (E _ (or_intror eq_refl)) as [-> ->]. now rewrite !byte_of_val.
Qed.

Lemma frombuffer_tobytes (a : list Z) :
  Forall (fun v => int16_min <= v <= int16_max) a ->
  frombuffer_int16 (tobytes_int16 a) = Ok a.
Proof.
  induction 1 as [|v a Hv _ IH]; [reflexivity|].
  unfold tobytes_int16 in *. cbn [flat_map le_of_int16 app frombuffer_int16].
  rewrite IH. cbn [bind]. now rewrite int16_of_le_of.
Qed.

Lemma samples_of_tobytes (a : list Z) :
  Forall (fun v => int16_min <= v <= int16_max) a ->
  samples_of (tobytes_int16 a) = a.
Proof. intros H. unfold samples_of. now rewrite frombuffer_tobytes. Qed.

(** Induction two elements at a time, as the sample loops consume bytes. *)
Lemma list_pair_ind {A : Type} (P : list A -> Prop) :
  P [] -> (forall a, P [a]) -> (forall a b l, P l -> P (a :: b :: l)) ->
  forall l, P l.
Proof.
  intros H0 H1 H2 l.
  enough (H : P l /\ forall a, P (a :: l)) by apply H.
  induction l as [|x l [IH1 IH2]]; split; auto.
Qed.

Lemma frombuffer_range (b : bytes) (a : list Z) :
  frombuffer_int16 b = Ok a -> Forall (fun v => int16_min <= v <= int16_max) a.
Proof.
  revert a. induction b as [|x|lo hi r IH] using list_pair_ind;
    intros a H; cbn [frombuffer_int16] in H.
  - injection H as <-; constructor.
  - discriminate.
  - inv_bind H. injection H as <-. constructor.
    + apply int16_of_le_range.
    + now apply IH.
Qed.

Lemma tobytes_frombuffer (b : bytes) (a : list Z) :
  frombuffer_int16 b = Ok a -> tobytes_int16 a = b.
Proof.
  revert a. induction b as [|x|lo hi r IH] using list_pair_ind;
    intros a H; cbn [frombuffer_int16] in H.
  - injection H as <-; reflexivity.
  - discriminate.
  - inv_bind H. injection H as <-.
    unfold tobytes_int16. cbn [flat_map]. rewrite le_of_int16_of_le.
    cbn [app]. f_equal. f_equal. now apply IH.
Qed.

Lemma getitem_range (a : list Z) (k v : Z) :
  Forall (fun v => int16_min <= v <= int16_max) a ->
  getitem a k = Ok v -> int16_min <= v <= int16_max.
Proof.
  intros Ha. unfold getitem. cbv zeta.
  destruct (_ || _); [discriminate|].
  destruct (nth_error a _) as [x|] eqn:E; [|discriminate].
  intros [= <-]. apply nth_error_In in E.
  rewrite Forall_forall in Ha. now apply Ha.
Qed.

(** ** The arithmetic of the model on small inputs *)

Example py_int_truncates :
  py_int 0x1.8p+1 = Ok 3 /\ py_int (-0x1.8p+1) = Ok (-3) /\
  py_int 0x1.fffffffffffffp-1 = Ok 0 /\ py_int (1 / 0) = Raise OverflowError.
Proof. repeat split; vm_compute; reflexivity. Qed.

Example np_round_half_even :
  np_round 0x1p-1 = 0%float /\ np_round 0x1.8p+0 = 2%float /\
  np_round 0x1.4p+1 = 2%float /\ np_round (-0x1.cp+1) = (-4)%float.
Proof. repeat split; vm_compute; reflexivity. Qed.

Example floor_division_of_negatives :
  (-1 + 0) / 2 = -1 /\ Z.quot (-1 + 0) 2 = 0 /\ (-3 + 0) / 2 = -2.
Proof. repeat split; reflexivity. Qed.

Example int16_bytes :
  le_of_int16 (-2) = [Byte.xfe; Byte.xff] /\
  int16_of_le Byte.xfe Byte.xff = -2 /\
  le_of_int16 3006 = [Byte.xbe; Byte.x0b].
Proof. repeat split; vm_compute; reflexivity. Qed.

Example sin_model_values :
  sin_model 0 = 0%float /\
  py_int (sin_model (np_pi / 2) * 1000000)%float = Ok 1000000 /\
  py_int (sin_model (np_pi / 6) * 1000000)%float = Ok 499999.
Proof. repeat split; vm_compute; reflexivity. Qed.

(** The header the writer produces for eight bytes of stereo payload at
    44100 Hz. *)
Example wav_header_bytes :
  wave_write_file 2 2 44100 [scenario_stereo]
  = Ok ([Byte.x52; Byte.x49; Byte.x46; Byte.x46; Byte.x2c; Byte.x00; Byte.x00; Byte.x00;
         Byte.x57; Byte.x41; Byte.x56; Byte.x45; Byte.x66; Byte.x6d; Byte.x74; Byte.x20;
         Byte.x10; Byte.x00; Byte.x00; Byte.x00; Byte.x01; Byte.x00; Byte.x02; Byte.x00;
         Byte.x44; Byte.xac; Byte.x00; Byte.x00; Byte.x10; Byte.xb1; Byte.x02; Byte.x00;
         Byte.x04; Byte.x00; Byte.x10; Byte.x00; Byte.x64; Byte.x61; Byte.x74; Byte.x61;
         Byte.x08; Byte.x00; Byte.x00; Byte.x00] ++ scenario_stereo).
Proof. vm_compute. reflexivity. Qed.

(** A payload that is not made of whole frames makes the writer patch the
    two length fields; the reader then drops the partial frame. *)
Example wav_partial_frame :
  wave_write_file 1 2 44100 [[Byte.x01; Byte.x02; Byte.x03]]
  = Ok (wav_header 1 2 44100 3 ++ [Byte.x01; Byte.x02; Byte.x03]) /\
  extract_pcm_from_wav (wav_header 1 2 44100 3 ++ [Byte.x01; Byte.x02; Byte.x03])
  = [Byte.x01; Byte.x02].
Proof. split; vm_compute; reflexivity. Qed.

(** ** [resample_audio] *)

Lemma py_float_ok (z : Z) (f : float) : py_float z = Ok f -> f = float_of_Z z.
Proof.
  unfold py_float. cbv zeta. destruct (is_finite _); congruence.
Qed.

Lemma np_zeros_ok (n : Z) (a : list Z) : np_zeros n = Ok a -> 0 <= n.
Proof.
  unfold np_zeros. destruct (Z.ltb_spec n 0); [discriminate | lia].
Qed.

Lemma store_int16_ok (v w : Z) :
  store_int16 v = Ok w -> w = v /\ int16_min <= v <= int16_max.
Proof.
  unfold store_int16. destruct (in_int16 v) eqn:E; [|discriminate].
  intros [= <-]. split; [reflexivity | now apply in_int16_iff].
Qed.

Lemma resample_sample_range (samples : list Z) (ratio : float) (i v : Z) :
  Forall (fun v => int16_min <= v <= int16_max) samples ->
  resample_sample samples ratio i = Ok v -> int16_min <= v <= int16_max.
Proof.
  intros Hs H. unfold resample_sample in H.
  bind_inv H as p Hp. bind_inv H as i0 Hi0. cbv zeta in H.
  destruct (len samples - 1 <=? i0).
  - eapply getitem_range; eassumption.
  - bind_inv H as s0 Hs0. bind_inv H as s1 Hs1. bind_inv H as w Hw.
    apply store_int16_ok in H as [-> Hr]. exact Hr.
Qed.

(** What a completed run of the [try] block computed. *)
Lemma resample_audio_try_ok (pcm : bytes) (src tgt : Z) (out : bytes) :
  resample_audio_try pcm src tgt = Ok out ->
  exists samples ratio n resampled,
    frombuffer_int16 pcm = Ok samples /\
    py_truediv (float_of_Z tgt) (float_of_Z src) = Ok ratio /\
    target_length (len samples) ratio = Ok n /\
    0 <= n /\
    mapM (resample_sample samples ratio) (range n) = Ok resampled /\
    out = tobytes_int16 resampled /\
    samples_of out = resampled.
Proof.
  intros H. unfold resample_audio_try in H.
  bind_inv H as samples Hs.
  bind_inv H as ft Hft. apply py_float_ok in Hft; subst ft.
  bind_inv H as fs Hfs. apply py_float_ok in Hfs; subst fs.
  bind_inv H as ratio Hr.
  bind_inv H as n Hn.
  bind_inv H as z Hz. apply np_zeros_ok in Hz.
  bind_inv H as resampled Hm. injection H as <-.
  exists samples, ratio, n, resampled. repeat split; try assumption.
  apply samples_of_tobytes.
  eapply mapM_Forall; [|eassumption].
  intros i v. apply resample_sample_range. eapply frombuffer_range; eassumption.
Qed.

Lemma resample_audio_ok (pcm : bytes) (src tgt : Z) (out : bytes) :
  src <> tgt -> resample_audio_try pcm src tgt = Ok out ->
  resample_audio pcm src tgt = out.
Proof.
  intros Hne H. unfold resample_audio.
  destruct (Z.eqb_spec src tgt); [contradiction|]. now rewrite H.
Qed.

(** C3 is refuted on the specification's own scenario: 100 samples at
    22050 Hz resampled to 48000 Hz give 217 output samples, whereas
    [round(100 * 48000 / 22050)] is 218. *)
Lemma resample_audio_length_counterexample :
  len (samples_of (resample_audio scenario_pcm 22050 48000)) = 217 /\
  spec_target_length 100 22050 48000 = 218 /\
  len (samples_of (resample_audio scenario_pcm 22050 48000))
    <> spec_target_length (len (samples_of scenario_pcm)) 22050 48000.
Proof. vm_compute. repeat split; congruence. Qed.

(** C3 (amended): whenever the rates differ and the resampling completes,
    [resample_audio] produces exactly [int(len(source) * ratio)] samples,
    with [ratio = float(target_rate) / float(src_rate)]: the
    double-precision product truncated toward zero, not rounded. In
    particular 100 samples at 22050 Hz resampled to 48000 Hz yield 217
    output samples. *)
Theorem resample_audio_length :
  (forall (pcm : bytes) (src tgt : Z) (out : bytes),
      src <> tgt ->
      resample_audio_try pcm src tgt = Ok out ->
      exists samples ratio n,
        frombuffer_int16 pcm = Ok samples /\
        py_truediv (float_of_Z tgt) (float_of_Z src) = Ok ratio /\
        py_int (float_of_Z (len samples) * ratio)%float = Ok n /\
        resample_audio pcm src tgt = out /\
        len (samples_of out) = n)
  /\ len (samples_of (resample_audio scenario_pcm 22050 48000)) = 217.
Proof.
  split; [|vm_compute; reflexivity].
  intros pcm src tgt out Hne H.
  destruct (resample_audio_try_ok _ _ _ _ H)
    as (samples & ratio & n & resampled & Hs & Hr & Hn & Hpos & Hm & _ & Hout).
  exists samples, ratio, n. repeat split; try assumption.
  - now apply resample_audio_ok.
  - rewrite Hout. unfold len. rewrite (mapM_length _ _ _ Hm), range_length. lia.
Qed.

Lemma resample_audio_length_witness :
  exists samples ratio n,
    frombuffer_int16 scenario_pcm = Ok samples /\
    py_truediv (float_of_Z 48000) (float_of_Z 22050) = Ok ratio /\
    py_int (float_of_Z (len samples) * ratio)%float = Ok n /\
    resample_audio scenario_pcm 22050 48000
      = resample_audio scenario_pcm 22050 48000 /\
    len (samples_of (resample_audio scenario_pcm 22050 48000)) = n.
Proof.
  apply (proj1 resample_audio_length scenario_pcm 22050 48000
           (resample_audio scenario_pcm 22050 48000)).
  - lia.
  - vm_compute. reflexivity.
Defined.

(** C4 is refuted twice. The interpolated value is truncated toward zero,
    not rounded: for the samples [0; 1] resampled from 1000 Hz to 4000 Hz
    the output at index 3 (position 0.75) is 0, where rounding gives 1. And
    a constant signal is not always reproduced: two samples of value 100
    resampled from 8000 Hz to 44100 Hz give 99 at index 1. *)
Lemma resample_audio_sample_counterexample :
  nth 3 (samples_of (resample_audio (tobytes_int16 [0; 1]) 1000 4000)) 0 = 0 /\
  spec_fast_sample [0; 1] 4 3 = Ok 1 /\
  samples_of (resample_audio (tobytes_int16 [100; 100]) 8000 44100)
    = [100; 99; 100; 100; 100; 100; 100; 100; 100; 100; 100].
Proof. vm_compute. repeat split; reflexivity. Qed.

(** C4 (amended): whenever the rates differ and the resampling completes,
    the output sample at index [i], with source position [p = i / ratio],
    [i0 = int(p)] and [frac = p - i0], is the last source sample when
    [i0 >= len(s) - 1] and otherwise
    [int((1-frac)*s[i0] + frac*s[i0+1])], the double-precision value
    truncated toward zero (not rounded). In the scenario of 100 samples of
    value 1000 resampled from 22050 Hz to 48000 Hz, every one of the 217
    output samples is 1000. *)
Theorem resample_audio_sample :
  (forall (pcm : bytes) (src tgt : Z) (out : bytes) (s : list Z)
          (ratio : float) (i : Z),
      src <> tgt ->
      resample_audio_try pcm src tgt = Ok out ->
      frombuffer_int16 pcm = Ok s ->
      py_truediv (float_of_Z tgt) (float_of_Z src) = Ok ratio ->
      0 <= i < len (samples_of out) ->
      exists p i0,
        py_truediv (float_of_Z i) ratio = Ok p /\
        py_int p = Ok i0 /\
        let frac := (p - float_of_Z i0)%float in
        let o := nth (Z.to_nat i) (samples_of (resample_audio pcm src tgt)) 0 in
        if len s - 1 <=? i0 then getitem s (-1) = Ok o
        else exists s0 s1,
            getitem s i0 = Ok s0 /\ getitem s (i0 + 1) = Ok s1 /\
            py_int ((1 - frac) * float_of_Z s0 + frac * float_of_Z s1)%float = Ok o)
  /\ samples_of (resample_audio scenario_pcm 22050 48000) = repeat 1000 217.
Proof.
  split; [|vm_compute; reflexivity].
  intros pcm src tgt out s ratio i Hne H Hs Hr Hi.
  rewrite (resample_audio_ok _ _ _ _ Hne H).
  destruct (resample_audio_try_ok _ _ _ _ H)
    as (s' & ratio' & n & resampled & Hs' & Hr' & Hn & Hpos & Hm & _ & Hout).
  rewrite Hs in Hs'; injection Hs' as <-.
  rewrite Hr in Hr'; injection Hr' as <-.
  rewrite Hout in *.
  assert (Hlen : length resampled = Z.to_nat n)
    by (rewrite (mapM_length _ _ _ Hm); apply range_length).
  assert (Hin : (Z.to_nat i < length (range n))%nat)
    by (rewrite range_length; unfold len in Hi; lia).
  pose proof (mapM_nth _ _ _ Hm (Z.to_nat i) 0 0 Hin) as Hi'.
  rewrite range_nth in Hi' by (rewrite range_length in Hin; exact Hin).
  rewrite Z2Nat.id in Hi' by lia.
  unfold resample_sample in Hi'.
  bind_inv Hi' as p Hp. bind_inv Hi' as i0 Hi0. cbv zeta in Hi'.
  exists p, i0. split; [assumption|]. split; [assumption|]. cbv zeta.
  destruct (len s - 1 <=? i0); [assumption|].
  bind_inv Hi' as s0 Hs0. bind_inv Hi' as s1 Hs1. bind_inv Hi' as v Hv.
  apply store_int16_ok in Hi' as [Heq _].
  exists s0, s1. rewrite Heq. auto.
Qed.

Lemma resample_audio_sample_witness :
  exists p i0,
    py_truediv (float_of_Z 1) 4 = Ok p /\
    py_int p = Ok i0 /\
    let frac := (p - float_of_Z i0)%float in
    let o := nth (Z.to_nat 1)
               (samples_of (resample_audio (tobytes_int16 [0; 100]) 1000 4000)) 0 in
    if len [0; 100] - 1 <=? i0 then getitem [0; 100] (-1) = Ok o
    else exists s0 s1,
        getitem [0; 100] i0 = Ok s0 /\ getitem [0; 100] (i0 + 1) = Ok s1 /\
        py_int ((1 - frac) * float_of_Z s0 + frac * float_of_Z s1)%float = Ok o.
Proof.
  apply (proj1 resample_audio_sample (tobytes_int16 [0; 100]) 1000 4000
           (resample_audio (tobytes_int16 [0; 100]) 1000 4000) [0; 100] 4%float 1).
  - lia.
  - vm_compute. reflexivity.
  - vm_compute. reflexivity.
  - vm_compute. reflexivity.
  - vm_compute. split; congruence.
Defined.

(** C10: the resampler is error-atomic. Whatever exception the [try] block
    of [resample_audio] raises, the function returns the input bytes
    unchanged; and when both the high-quality body and the simple
    fallback of [fix_audio_for_unity] raise, that function returns the
    input bytes unchanged as well. Neither function can raise: both are
    total functions to [bytes]. *)
Theorem resample_error_atomic :
  (forall (pcm : bytes) (src tgt : Z) (e : exn),
      resample_audio_try pcm src tgt = Raise e ->
      resample_audio pcm src tgt = pcm)
  /\ (forall (E : numpy_env) (pcm : bytes) (src tgt : Z) (e1 e2 : exn),
      fix_audio_try E pcm src tgt = Raise e1 ->
      simple_resample_try pcm src tgt = Raise e2 ->
      fix_audio_for_unity E pcm src tgt = pcm)
  /\ (forall (pcm : bytes) (src tgt : Z),
      Nat.odd (length pcm) = true ->
      exists e, resample_audio_try pcm src tgt = Raise e).
Proof.
  split; [|split].
  - intros pcm src tgt e H. unfold resample_audio.
    destruct (src =? tgt); [reflexivity|]. now rewrite H.
  - intros E pcm src tgt e1 e2 H1 H2. unfold fix_audio_for_unity.
    destruct (src =? tgt); [reflexivity|]. now rewrite H1, H2.
  - intros pcm src tgt Hodd.
    assert (Hf : frombuffer_int16 pcm = Raise ValueError).
    { revert Hodd. induction pcm as [|x|lo hi r IH] using list_pair_ind.
      - discriminate.
      - reflexivity.
      - intros Hodd. cbn [frombuffer_int16].
        rewrite IH; [reflexivity|]. exact Hodd. }
    exists ValueError. unfold resample_audio_try. now rewrite Hf.
Qed.

Lemma resample_error_atomic_witness :
  resample_audio [Byte.x01; Byte.x02; Byte.x03] 22050 48000
    = [Byte.x01; Byte.x02; Byte.x03]
  /\ fix_audio_for_unity env_scipy [Byte.x01; Byte.x02; Byte.x03] 22050 48000
    = [Byte.x01; Byte.x02; Byte.x03].
Proof.
  split.
  - apply (proj1 resample_error_atomic _ 22050 48000 ValueError).
    vm_compute. reflexivity.
  - apply (proj1 (proj2 resample_error_atomic) env_scipy _ 22050 48000
             ValueError ValueError); vm_compute; reflexivity.
Defined.

(** ** The stereo downmix *)

Lemma tobytes_app (a b : list Z) :
  tobytes_int16 (a ++ b) = tobytes_int16 a ++ tobytes_int16 b.
Proof. unfold tobytes_int16. apply flat_map_app. Qed.

Lemma tobytes_length (a : list Z) :
  length (tobytes_int16 a) = (2 * length a)%nat.
Proof.
  induction a as [|v a IH]; [reflexivity|].
  unfold tobytes_int16 in *. cbn [flat_map le_of_int16 app length].
  rewrite IH. lia.
Qed.

Lemma unpack_pack_h (v : Z) :
  int16_min <= v <= int16_max -> unpack_h (le_of_int16 v) = Ok v.
Proof.
  intros Hv. unfold le_of_int16, unpack_h. now rewrite int16_of_le_of.
Qed.

Lemma mix_range (l r : Z) :
  int16_min <= l <= int16_max -> int16_min <= r <= int16_max ->
  int16_min <= (l + r) / 2 <= int16_max.
Proof.
  unfold int16_min, int16_max. intros Hl Hr.
  pose proof (Z.div_mod (l + r) 2 ltac:(lia)).
  pose proof (Z.mod_pos_bound (l + r) 2 ltac:(lia)). lia.
Qed.

Lemma mix_pairs_range (a : list Z) :
  Forall (fun v => int16_min <= v <= int16_max) a ->
  Forall (fun v => int16_min <= v <= int16_max) (mix_pairs a).
Proof.
  induction a as [|x|l r a IH] using list_pair_ind; intros H;
    cbn [mix_pairs]; try constructor.
  - inversion H as [|? ? Hl H']; subst. inversion H' as [|? ? Hr H'']; subst.
    now apply mix_range.
  - inversion H as [|? ? Hl H']; subst. inversion H' as [|? ? Hr H'']; subst.
    now apply IH.
Qed.

Lemma mix_pairs_length (a : list Z) :
  length (mix_pairs a) = Nat.div2 (length a).
Proof.
  induction a as [|x|l r a IH] using list_pair_ind; cbn [mix_pairs length Nat.div2];
    auto.
Qed.

(** One iteration of the loop on frame number [k]. *)
Lemma downmix_step_frame (pre rest : list Z) (l r : Z) (done zeros : bytes) (k : nat) :
  Forall (fun v => int16_min <= v <= int16_max) [l; r] ->
  length pre = (2 * k)%nat ->
  length done = (2 * k)%nat ->
  downmix_step (tobytes_int16 (pre ++ l :: r :: rest))
    (done ++ Byte.x00 :: Byte.x00 :: zeros) (4 * Z.of_nat k)
  = Ok ((done ++ le_of_int16 ((l + r) / 2)) ++ zeros).
Proof.
  intros Hlr Hpre Hdone.
  inversion Hlr as [|? ? Hl Hlr']; subst. inversion Hlr' as [|? ? Hr _]; subst.
  unfold downmix_step.
  assert (Hlen : len (tobytes_int16 (pre ++ l :: r :: rest))
                 = 4 * Z.of_nat k + 4 + 2 * Z.of_nat (length rest)).
  { unfold len. rewrite tobytes_length, length_app. cbn [length]. lia. }
  rewrite Hlen.
  destruct (Z.ltb_spec (4 * Z.of_nat k + 3)
              (4 * Z.of_nat k + 4 + 2 * Z.of_nat (length rest))); [|lia].
  assert (Hskip : skipn (Z.to_nat (4 * Z.of_nat k))
                    (tobytes_int16 (pre ++ l :: r :: rest))
                  = le_of_int16 l ++ le_of_int16 r ++ tobytes_int16 rest).
  { rewrite tobytes_app.
    rewrite skipn_app, skipn_all2 by (rewrite tobytes_length; lia).
    rewrite tobytes_length.
    replace (Z.to_nat (4 * Z.of_nat k) - 2 * length pre)%nat with 0%nat by lia.
    reflexivity. }
  unfold slice.
  replace (Z.to_nat (4 * Z.of_nat k + 2)) with (2 + Z.to_nat (4 * Z.of_nat k))%nat by lia.
  rewrite <- skipn_skipn, Hskip.
  replace (4 * Z.of_nat k + 2 - 4 * Z.of_nat k) with 2 by lia.
  replace (4 * Z.of_nat k + 4 - (4 * Z.of_nat k + 2)) with 2 by lia.
  change (firstn (Z.to_nat 2) (le_of_int16 l ++ le_of_int16 r ++ tobytes_int16 rest))
    with (le_of_int16 l).
  change (firstn (Z.to_nat 2)
            (skipn 2 (le_of_int16 l ++ le_of_int16 r ++ tobytes_int16 rest)))
    with (le_of_int16 r).
  rewrite !unpack_pack_h by assumption. cbn [bind].
  unfold pack_h.
  pose proof (mix_range l r Hl Hr) as Hm.
  apply in_int16_iff in Hm. rewrite Hm. cbn [bind].
  f_equal. unfold set_slice.
  replace (4 * Z.of_nat k / 2) with (2 * Z.of_nat k)
    by (apply Z.div_unique with (r := 0); lia).
  replace (Z.to_nat (2 * Z.of_nat k)) with (length done) by lia.
  rewrite firstn_app, firstn_all, Nat.sub_diag. cbn [firstn].
  rewrite app_nil_r, <- app_assoc. f_equal. f_equal.
  replace (Z.to_nat (Z.max (2 * Z.of_nat k) (2 * Z.of_nat k + 2)))
    with (length done + 2)%nat by lia.
  rewrite skipn_app, skipn_all2 by lia.
  replace (length done + 2 - length done)%nat with 2%nat by lia.
  reflexivity.
Qed.

(** The loop over the frames that remain after [k] of them. *)
Lemma downmix_loop (rest : list Z) :
  forall (pre : list Z) (done : bytes) (k : nat),
    Forall (fun v => int16_min <= v <= int16_max) rest ->
    Nat.even (length rest) = true ->
    length pre = (2 * k)%nat ->
    length done = (2 * k)%nat ->
    foldM (downmix_step (tobytes_int16 (pre ++ rest)))
      (map (fun j => 4 * j) (range_from (Nat.div2 (length rest)) (Z.of_nat k)))
      (done ++ repeat Byte.x00 (length rest))
    = Ok (done ++ tobytes_int16 (mix_pairs rest)).
Proof.
  induction rest as [|x|l r rest IH] using list_pair_ind;
    intros pre done k Hr Hev Hpre Hdone.
  - cbn. now rewrite !app_nil_r.
  - discriminate.
  - inversion Hr as [|? ? Hl Hr']; subst. inversion Hr' as [|? ? Hrr Hr'']; subst.
    cbn [length Nat.div2 range_from map foldM repeat].
    rewrite (downmix_step_frame pre rest l r done _ k) by auto. cbn [bind].
    replace (pre ++ l :: r :: rest) with ((pre ++ [l; r]) ++ rest)
      by (now rewrite <- app_assoc).
    replace (Z.of_nat k + 1) with (Z.of_nat (S k)) by lia.
    rewrite (IH (pre ++ [l; r]) (done ++ le_of_int16 ((l + r) / 2)) (S k)).
    + cbn [mix_pairs]. unfold tobytes_int16 at 2. cbn [flat_map].
      now rewrite <- app_assoc.
    + assumption.
    + exact Hev.
    + rewrite length_app. cbn [length]. lia.
    + rewrite length_app. cbn [length le_of_int16]. lia.
Qed.

Lemma range_step_4 (n : nat) :
  range_step (4 * Z.of_nat n) 4 = map (fun j => 4 * j) (range_from n 0).
Proof.
  unfold range_step, range.
  replace ((4 * Z.of_nat n + 4 - 1) / 4) with (Z.of_nat n)
    by (apply Z.div_unique with (r := 3); lia).
  now rewrite Nat2Z.id.
Qed.

Lemma even_div2 (n : nat) : Nat.even n = true -> n = (2 * Nat.div2 n)%nat.
Proof.
  intros H. apply Nat.even_spec in H. destruct H as [m ->].
  rewrite Nat.div2_double. reflexivity.
Qed.

(** The stereo loop on a whole buffer of interleaved samples. *)
Lemma stereo_to_mono_samples (samples : list Z) :
  Forall (fun v => int16_min <= v <= int16_max) samples ->
  Nat.even (length samples) = true ->
  stereo_to_mono (tobytes_int16 samples) (len (tobytes_int16 samples) / 2)
  = Ok (tobytes_int16 (mix_pairs samples)).
Proof.
  intros Hr Hev. unfold stereo_to_mono.
  pose proof (even_div2 _ Hev) as Hn.
  assert (Hlen : len (tobytes_int16 samples) = 4 * Z.of_nat (Nat.div2 (length samples))).
  { unfold len. rewrite tobytes_length. lia. }
  rewrite Hlen, range_step_4.
  replace (4 * Z.of_nat (Nat.div2 (length samples)) / 2)
    with (Z.of_nat (length samples))
    by (apply Z.div_unique with (r := 0); lia).
  rewrite Nat2Z.id.
  apply (downmix_loop samples [] [] 0%nat); auto.
Qed.

(** C5 is refuted on a frame whose sum is negative and odd: the frame
    (-1, 0) is mixed to -1, the floor of -1/2, where truncating division
    gives 0. *)
Lemma stereo_downmix_counterexample :
  stereo_to_mono (tobytes_int16 [-1; 0]) 2 = Ok (tobytes_int16 [-1]) /\
  extract_pcm_from_wav (wav_of 2 (tobytes_int16 [-1; 0])) = tobytes_int16 [-1] /\
  spec_mix (-1) 0 = 0 /\
  mix_pairs [-1; 0] <> [spec_mix (-1) 0].
Proof. vm_compute. repeat split; congruence. Qed.

(** C5 (amended): for every stereo 16-bit buffer the downmix produces one
    mono sample per frame, equal to the arithmetic mean of the left and
    right samples computed with floor division ([//], rounding toward
    minus infinity; it agrees with truncating division exactly when the
    sum is non-negative or even, and is one less otherwise). The result
    never clips: it is always a representable 16-bit value. The two frames
    [(100,200),(300,400)] are mapped to [150, 350]. *)
Theorem stereo_downmix :
  (forall (pcm : bytes) (samples : list Z),
      frombuffer_int16 pcm = Ok samples ->
      Nat.even (length samples) = true ->
      stereo_to_mono pcm (len pcm / 2) = Ok (tobytes_int16 (mix_pairs samples)) /\
      samples_of (tobytes_int16 (mix_pairs samples)) = mix_pairs samples /\
      length (mix_pairs samples) = Nat.div2 (length samples) /\
      Forall (fun v => -32768 <= v <= 32767) (mix_pairs samples))
  /\ (forall l r : Z,
      0 <= l + r \/ Z.even (l + r) = true -> (l + r) / 2 = spec_mix l r)
  /\ (forall l r : Z,
      l + r < 0 -> Z.odd (l + r) = true -> (l + r) / 2 = spec_mix l r - 1)
  /\ extract_pcm_from_wav (wav_of 2 scenario_stereo) = tobytes_int16 [150; 350].
Proof.
  split; [|split; [|split]].
  - intros pcm samples Hs Hev.
    pose proof (frombuffer_range _ _ Hs) as Hr.
    pose proof (tobytes_frombuffer _ _ Hs) as Hb. subst pcm.
    split; [now apply stereo_to_mono_samples|].
    split; [apply samples_of_tobytes; now apply mix_pairs_range|].
    split; [apply mix_pairs_length|].
    exact (mix_pairs_range _ Hr).
  - intros l r [Hpos | Hev]; unfold spec_mix.
    + rewrite Z.quot_div_nonneg by lia. reflexivity.
    + rewrite Z.even_spec in Hev. destruct Hev as [m ->].
      rewrite Z.mul_comm, Z.div_mul, Z.quot_mul by lia. reflexivity.
  - intros l r Hneg Hodd. unfold spec_mix.
    rewrite Z.odd_spec in Hodd. destruct Hodd as [m Hm]. rewrite Hm.
    replace ((2 * m + 1) / 2) with m
      by (apply Z.div_unique with (r := 1); lia).
    assert (Hq : Z.quot (2 * m + 1) 2 = m + 1).
    { replace (2 * m + 1) with (- (2 * (- m - 1) + 1)) by lia.
      rewrite Z.quot_opp_l, Z.quot_div_nonneg by lia.
      replace ((2 * (- m - 1) + 1) / 2) with (- m - 1)
        by (apply Z.div_unique with (r := 1); lia).
      lia. }
    lia.
  - vm_compute. reflexivity.
Qed.

Lemma stereo_downmix_witness :
  stereo_to_mono scenario_stereo (len scenario_stereo / 2)
    = Ok (tobytes_int16 (mix_pairs [100; 200; 300; 400])) /\
  samples_of (tobytes_int16 (mix_pairs [100; 200; 300; 400]))
    = mix_pairs [100; 200; 300; 400] /\
  length (mix_pairs [100; 200; 300; 400]) = Nat.div2 (length [100; 200; 300; 400]) /\
  Forall (fun v => -32768 <= v <= 32767) (mix_pairs [100; 200; 300; 400]).
Proof.
  apply (proj1 stereo_downmix scenario_stereo [100; 200; 300; 400]).
  - vm_compute. reflexivity.
  - reflexivity.
Defined.

(** ** The WAV container *)

Lemma len_app {A : Type} (a b : list A) : len (a ++ b) = len a + len b.
Proof. unfold len. rewrite length_app. lia. Qed.

Lemma len_nonneg {A : Type} (a : list A) : 0 <= len a.
Proof. unfold len. lia. Qed.

Lemma slice_len {A : Type} (l : list A) (a b : Z) :
  0 <= a -> a <= b -> b <= len l -> len (slice l a b) = b - a.
Proof.
  unfold slice, len. intros Ha Hab Hb.
  rewrite length_firstn, length_skipn. lia.
Qed.

Lemma slice_all_after {A : Type} (h t : list A) :
  slice (h ++ t) (len h) (len h + len t) = t.
Proof.
  unfold slice, len.
  rewrite skipn_app, skipn_all2 by lia.
  rewrite Nat2Z.id, Nat.sub_diag. cbn [skipn app].
  replace (Z.of_nat (length h) + Z.of_nat (length t) - Z.of_nat (length h))
    with (Z.of_nat (length t)) by lia.
  rewrite Nat2Z.id. apply firstn_all.
Qed.

Lemma le_bytes_length (n : nat) (v : Z) : length (le_bytes n v) = n.
Proof. revert v; induction n; intros v; simpl; auto. Qed.

Lemma uint_of_le_bytes_mod (n : nat) (v : Z) :
  uint_of_le (le_bytes n v) = v mod 256 ^ Z.of_nat n.
Proof.
  revert v; induction n as [|n IH]; intros v.
  - cbn. now rewrite Z.mod_1_r.
  - cbn [le_bytes uint_of_le fold_right].
    change (fold_right (fun x acc => byte_val x + 256 * acc) 0 (le_bytes n (v / 256)))
      with (uint_of_le (le_bytes n (v / 256))).
    rewrite IH, byte_val_of, Nat2Z.inj_succ, Z.pow_succ_r by lia.
    rewrite Z.rem_mul_r by lia. reflexivity.
Qed.

Lemma uint_of_le_bytes (n : nat) (v : Z) :
  0 <= v < 256 ^ Z.of_nat n -> uint_of_le (le_bytes n v) = v.
Proof. intros H. rewrite uint_of_le_bytes_mod. now apply Z.mod_small. Qed.

Lemma pack_uint_ok (n : nat) (v : Z) :
  0 <= v < 256 ^ Z.of_nat n -> pack_uint n v = Ok (le_bytes n v).
Proof.
  intros [H1 H2]. unfold pack_uint.
  apply Z.leb_le in H1. apply Z.ltb_lt in H2. now rewrite H1, H2.
Qed.

(** A read of the RIFF chunk that stays inside the file and the chunk. *)
Lemma riff_read_in (file : bytes) (S rd size : Z) :
  0 <= rd -> 0 < size -> rd + size <= len file -> rd + size <= S ->
  (rd + size = S -> Z.odd S = false) ->
  riff_read (mkRiff file (mkChunk S rd)) size
  = (slice file rd (rd + size), mkRiff file (mkChunk S (rd + size))).
Proof.
  intros Hrd Hsz Hfile HS Hodd. unfold riff_read. cbn [r_chunk r_file c_size c_read].
  destruct (Z.leb_spec S rd); [lia|].
  rewrite Z.min_l by lia.
  rewrite slice_len by lia.
  replace (rd + (rd + size - rd)) with (rd + size) by lia.
  destruct (Z.eqb_spec (rd + size) S) as [E|E]; [rewrite (Hodd E)|]; reflexivity.
Qed.

(** The same for a chunk inside the RIFF chunk. *)
Lemma sub_read_in (file : bytes) (S rd cs cr size : Z) :
  0 <= rd -> 0 < size -> rd + size <= len file -> rd + size <= S ->
  (rd + size = S -> Z.odd S = false) ->
  0 <= cr -> cr + size <= cs -> (cr + size = cs -> Z.odd cs = false) ->
  sub_read (mkRiff file (mkChunk S rd)) (mkChunk cs cr) size
  = (slice file rd (rd + size), mkChunk cs (cr + size),
     mkRiff file (mkChunk S (rd + size))).
Proof.
  intros Hrd Hsz Hfile HS Hodd Hcr Hcs Hcodd. unfold sub_read.
  cbn [c_size c_read].
  destruct (Z.leb_spec cs cr); [lia|].
  rewrite Z.min_l by lia.
  rewrite riff_read_in by assumption.
  rewrite slice_len by lia.
  replace (cr + (rd + size - rd)) with (cr + size) by lia.
  destruct (Z.eqb_spec (cr + size) cs) as [E|E]; [rewrite (Hcodd E)|]; reflexivity.
Qed.

(** Opening an inner chunk whose eight-byte header lies inside the file. *)
Lemma sub_open_in (file : bytes) (S rd : Z) :
  0 <= rd -> rd + 8 <= len file -> rd + 8 <= S ->
  (rd + 8 = S -> Z.odd S = false) ->
  sub_open (mkRiff file (mkChunk S rd))
  = Ok (slice file rd (rd + 4),
        mkChunk (uint_of_le (slice file (rd + 4) (rd + 8))) 0,
        mkRiff file (mkChunk S (rd + 8))).
Proof.
  intros Hrd Hfile HS Hodd. unfold sub_open.
  rewrite riff_read_in by lia.
  rewrite slice_len by lia.
  destruct (Z.ltb_spec (rd + 4 - rd) 4); [lia|].
  rewrite riff_read_in; try lia; [|intros; apply Hodd; lia].
  replace (rd + 4 + 4) with (rd + 8) by lia.
  unfold unpack_uint. rewrite slice_len by lia.
  destruct (Z.ltb_spec (rd + 8 - (rd + 4)) (Z.of_nat 4)); [lia|].
  rewrite firstn_all2; [reflexivity|].
  pose proof (slice_len file (rd + 4) (rd + 8) ltac:(lia) ltac:(lia) ltac:(lia)) as Hl.
  unfold len in Hl. lia.
Qed.

(** The writer on a payload made of whole frames: no header patch is needed. *)
Lemma wave_write_file_aligned (nch rate : Z) (pcm : bytes) :
  1 <= nch -> nch * 2 < 65536 -> 0 < rate -> nch * rate * 2 < 2 ^ 32 ->
  len pcm mod (nch * 2) = 0 -> 36 + len pcm < 2 ^ 32 ->
  wave_write_file nch 2 rate [pcm] = Ok (wav_header nch 2 rate (len pcm) ++ pcm).
Proof.
  intros Hn1 Hn2 Hr1 Hr2 Hal Hsz.
  pose proof (len_nonneg pcm) as Hl.
  assert (Hdl : len pcm / (nch * 2) * nch * 2 = len pcm).
  { pose proof (Z.div_mod (len pcm) (nch * 2) ltac:(lia)). lia. }
  unfold wave_write_file, wave_open_write.
  destruct (Z.ltb_spec nch 1); [lia|].
  change ((2 <? 1) || (4 <? 2)) with false. cbv iota.
  destruct (Z.leb_spec rate 0); [lia|].
  cbn [bind fold_left]. unfold writeframes, ensure_header_written.
  cbn [ww_header]. unfold write_header.
  cbn [ww_nchannels ww_sampwidth ww_framerate ww_datawritten ww_payload].
  rewrite Hdl.
  rewrite !pack_uint_ok by (unfold WAVE_FORMAT_PCM;
                            change (256 ^ Z.of_nat 4) with (2 ^ 32);
                            change (256 ^ Z.of_nat 2) with 65536; nia).
  cbn [bind ww_nchannels ww_sampwidth ww_framerate ww_header ww_datalength
       ww_datawritten ww_payload].
  unfold patchheader.
  cbn [ww_nchannels ww_sampwidth ww_framerate ww_header ww_datalength
       ww_datawritten ww_payload].
  rewrite Z.add_0_l, Z.eqb_refl. cbn [bind ww_header].
  unfold wave_close_getvalue, ensure_header_written. cbn [ww_header bind].
  unfold patchheader. cbn [ww_datawritten ww_datalength]. rewrite Z.eqb_refl.
  cbn [bind ww_header ww_payload app].
  unfold wav_header, riff_body_header. rewrite <- !app_assoc. reflexivity.
Qed.


(** One iteration of the chunk loop. *)
Lemma read_chunks_step (fuel : nat) (r : riff) (fmt : option fmt_info) :
  read_chunks (S fuel) r fmt
  = match sub_open r with
    | Raise _ => Ok (fmt, None, r)
    | Ok (name, c, r1) =>
        if bytes_eqb name tag_fmt then
          x <- read_fmt_chunk r1 c ;;
          let '(f, c2, r2) := x in
          r3 <- sub_skip r2 c2 ;;
          read_chunks fuel r3 (Some f)
        else if bytes_eqb name tag_data then
          match fmt with
          | None => Raise WaveError
          | Some f =>
              Ok (fmt, Some (c, c_size c / (f_nchannels f * f_sampwidth f)), r1)
          end
        else
          r3 <- sub_skip r1 c ;;
          read_chunks fuel r3 fmt
    end.
Proof. reflexivity. Qed.

(** The reader on a 44-byte canonical header followed by the payload, for
    arbitrary bytes in the numeric fields. *)
Section CanonicalFile.
Variables s0 s1 s2 s3 c0 c1 r0 r1 r2 r3 a0 a1 a2 a3 k0 k1 d0 d1 d2 d3 : Byte.byte.
Variable pcm : bytes.
Variables nch rate : Z.

Let body : bytes :=
  [Byte.x57; Byte.x41; Byte.x56; Byte.x45; Byte.x66; Byte.x6d; Byte.x74; Byte.x20;
   Byte.x10; Byte.x00; Byte.x00; Byte.x00; Byte.x01; Byte.x00; c0; c1;
   r0; r1; r2; r3; a0; a1; a2; a3; k0; k1; Byte.x10; Byte.x00;
   Byte.x64; Byte.x61; Byte.x74; Byte.x61; d0; d1; d2; d3] ++ pcm.

Hypothesis Hsize : uint_of_le [s0; s1; s2; s3] = 36 + len pcm.
Hypothesis Hnch : uint_of_le [c0; c1] = nch.
Hypothesis Hrate : uint_of_le [r0; r1; r2; r3] = rate.
Hypothesis Hdata : uint_of_le [d0; d1; d2; d3] = len pcm.
Hypothesis Hnz : nch <> 0.
Hypothesis Hev : Z.odd (len pcm) = false.

Lemma wave_open_read_bytes :
  wave_open_read (Byte.x52 :: Byte.x49 :: Byte.x46 :: Byte.x46
                    :: s0 :: s1 :: s2 :: s3 :: body)
  = Ok (mkReader (mkFmt nch rate 2) (len pcm / (nch * 2)) (mkChunk (len pcm) 0)
          (mkRiff body (mkChunk (36 + len pcm) 36))).
Proof.
  pose proof (len_nonneg pcm) as Hl.
  assert (Hodd : Z.odd (36 + len pcm) = false).
  { rewrite Z.odd_add, Hev. reflexivity. }
  assert (Hbody : len body = 36 + len pcm).
  { unfold body. rewrite len_app. reflexivity. }
  set (L := len pcm) in *.
  unfold wave_open_read.
  set (blob := Byte.x52 :: _).
  replace (slice blob 0 4) with tag_RIFF by (vm_compute; reflexivity).
  replace (len tag_RIFF <? 4) with false by (vm_compute; reflexivity). cbv iota.
  replace (slice blob 4 8) with [s0; s1; s2; s3] by (vm_compute; reflexivity).
  unfold unpack_uint.
  replace (len [s0; s1; s2; s3] <? Z.of_nat 4) with false by (vm_compute; reflexivity). cbv iota.
  replace (firstn 4 [s0; s1; s2; s3]) with [s0; s1; s2; s3] by (vm_compute; reflexivity).
  rewrite Hsize.
  replace (skipn 8 blob) with body by (vm_compute; reflexivity).
  replace (negb (bytes_eqb tag_RIFF tag_RIFF)) with false by (vm_compute; reflexivity). cbv iota.
  rewrite riff_read_in by lia.
  replace (slice body 0 (0 + 4)) with tag_WAVE by (vm_compute; reflexivity).
  replace (negb (bytes_eqb tag_WAVE tag_WAVE)) with false by (vm_compute; reflexivity). cbv iota.
  replace (length blob) with (S (43 + length pcm)) by (vm_compute; reflexivity).
  rewrite read_chunks_step.
  rewrite sub_open_in by lia.
  replace (slice body (0 + 4) (0 + 4 + 4)) with tag_fmt by (vm_compute; reflexivity).
  replace (uint_of_le (slice body (0 + 4 + 4) (0 + 4 + 8))) with 16 by (vm_compute; reflexivity).
  replace (bytes_eqb tag_fmt tag_fmt) with true by (vm_compute; reflexivity). cbv iota.
  unfold read_fmt_chunk.
  rewrite sub_read_in by (first [lia | intros; reflexivity]).
  set (d14 := slice body (0 + 4 + 8) (0 + 4 + 8 + 14)).
  replace (len d14 <? 14) with false by (vm_compute; reflexivity). cbv iota.
  replace (uint_of_le (slice d14 0 2)) with 1 by (vm_compute; reflexivity).
  replace (uint_of_le (slice d14 2 4)) with (uint_of_le [c0; c1]) by (vm_compute; reflexivity).
  replace (uint_of_le (slice d14 4 8)) with (uint_of_le [r0; r1; r2; r3]) by (vm_compute; reflexivity).
  rewrite Hnch, Hrate.
  replace (1 =? WAVE_FORMAT_PCM) with true by (vm_compute; reflexivity). cbv iota.
  rewrite sub_read_in by (first [lia | intros; reflexivity]).
  replace (slice body (0 + 4 + 8 + 14) (0 + 4 + 8 + 14 + 2)) with [Byte.x10; Byte.x00] by (vm_compute; reflexivity).
  replace (len [Byte.x10; Byte.x00] <? 2) with false by (vm_compute; reflexivity). cbv iota.
  replace ((uint_of_le [Byte.x10; Byte.x00] + 7) / 8) with 2 by (vm_compute; reflexivity).
  replace (2 =? 0) with false by (vm_compute; reflexivity). cbv iota.
  destruct (Z.eqb_spec nch 0); [contradiction|].
  cbn [bind]. unfold sub_skip. cbn [c_size c_read].
  replace (Z.odd 16) with false by (vm_compute; reflexivity). cbv iota.
  unfold riff_seek_cur. cbn [r_chunk r_file c_size c_read].
  replace (16 - (0 + 14 + 2) + (0 + 4 + 8 + 14 + 2)) with 28 by (vm_compute; reflexivity).
  replace (28 <? 0) with false by (vm_compute; reflexivity).
  destruct (Z.ltb_spec (36 + L) 28); [lia|].
  cbn [orb bind].
  rewrite read_chunks_step.
  rewrite sub_open_in by (first [lia | intros; exact Hodd]).
  replace (slice body 28 (28 + 4)) with tag_data by (vm_compute; reflexivity).
  replace (uint_of_le (slice body (28 + 4) (28 + 8))) with (uint_of_le [d0; d1; d2; d3]) by (vm_compute; reflexivity).
  rewrite Hdata.
  replace (bytes_eqb tag_data tag_fmt) with false by (vm_compute; reflexivity).
  replace (bytes_eqb tag_data tag_data) with true by (vm_compute; reflexivity). cbv iota.
  cbn [c_size f_nchannels f_sampwidth bind]. reflexivity.
Qed.

End CanonicalFile.

Lemma wave_open_read_canonical (nch rate : Z) (pcm : bytes) :
  1 <= nch -> nch * 2 < 65536 -> 0 <= rate < 2 ^ 32 ->
  36 + len pcm < 2 ^ 32 -> Z.odd (len pcm) = false ->
  wave_open_read (wav_header nch 2 rate (len pcm) ++ pcm)
  = Ok (mkReader (mkFmt nch rate 2) (len pcm / (nch * 2)) (mkChunk (len pcm) 0)
          (mkRiff (riff_body_header nch 2 rate (len pcm) ++ pcm)
             (mkChunk (36 + len pcm) 36))).
Proof.
  intros Hn1 Hn2 Hr Hsz Hev.
  pose proof (len_nonneg pcm) as Hl.
  unfold wav_header, riff_body_header, tag_RIFF, tag_WAVE, tag_fmt, tag_data.
  cbn [app le_bytes].
  apply wave_open_read_bytes.
  - apply (uint_of_le_bytes 4). change (256 ^ Z.of_nat 4) with (2 ^ 32). lia.
  - apply (uint_of_le_bytes 2). change (256 ^ Z.of_nat 2) with 65536. lia.
  - apply (uint_of_le_bytes 4). change (256 ^ Z.of_nat 4) with (2 ^ 32). lia.
  - apply (uint_of_le_bytes 4). change (256 ^ Z.of_nat 4) with (2 ^ 32). lia.
  - lia.
  - exact Hev.
Qed.

Lemma aligned_even (nch L : Z) :
  1 <= nch -> L mod (nch * 2) = 0 -> Z.odd L = false.
Proof.
  intros Hn Hm.
  pose proof (Z.div_mod L (nch * 2) ltac:(lia)) as Hd.
  rewrite Hm, Z.add_0_r in Hd.
  rewrite Hd, <- Z.negb_even.
  replace (nch * 2 * (L / (nch * 2))) with (2 * (nch * (L / (nch * 2)))) by lia.
  now rewrite Z.even_mul.
Qed.

(** Reading back all the frames of a canonical file gives the payload. *)
Lemma readframes_canonical (nch rate : Z) (pcm : bytes) :
  1 <= nch -> len pcm mod (nch * 2) = 0 ->
  readframes
    (mkReader (mkFmt nch rate 2) (len pcm / (nch * 2)) (mkChunk (len pcm) 0)
       (mkRiff (riff_body_header nch 2 rate (len pcm) ++ pcm)
          (mkChunk (36 + len pcm) 36)))
    (len pcm / (nch * 2))
  = pcm.
Proof.
  intros Hn Hal.
  pose proof (len_nonneg pcm) as Hl.
  pose proof (aligned_even _ _ Hn Hal) as Hev.
  pose proof (Z.div_mod (len pcm) (nch * 2) ltac:(lia)) as Hd.
  rewrite Hal, Z.add_0_r in Hd.
  unfold readframes, getnchannels, getsampwidth.
  cbn [w_fmt w_riff w_data f_nchannels f_sampwidth].
  destruct (Z.eqb_spec (len pcm / (nch * 2)) 0) as [E|E].
  - rewrite E in Hd. destruct pcm; [reflexivity|]. unfold len in Hd. cbn in Hd. lia.
  - replace (len pcm / (nch * 2) * (nch * 2)) with (len pcm) by lia.
    assert (0 < len pcm) by (destruct (Z.eq_dec (len pcm) 0) as [Z0|]; [|lia];
                             rewrite Z0 in E; now rewrite Z.div_0_l in E by lia).
    rewrite sub_read_in.
    + exact (slice_all_after (riff_body_header nch 2 rate (len pcm)) pcm).
    + lia.
    + assumption.
    + rewrite len_app. change (len (riff_body_header nch 2 rate (len pcm))) with 36. lia.
    + lia.
    + intros _. now rewrite Z.odd_add, Hev.
    + lia.
    + lia.
    + intros _. exact Hev.
Qed.

(** Writing a well-formed payload and opening the result. *)
Lemma wave_write_read (nch rate : Z) (pcm : bytes) :
  1 <= nch -> nch * 2 < 65536 -> 0 < rate -> nch * rate * 2 < 2 ^ 32 ->
  len pcm mod (nch * 2) = 0 -> 36 + len pcm < 2 ^ 32 ->
  exists blob w,
    wave_write_file nch 2 rate [pcm] = Ok blob /\
    wave_open_read blob = Ok w /\
    getnchannels w = nch /\ getsampwidth w = 2 /\ getframerate w = rate /\
    getnframes w = len pcm / (nch * 2) /\
    readframes w (getnframes w) = pcm.
Proof.
  intros Hn1 Hn2 Hr1 Hr2 Hal Hsz.
  eexists. eexists.
  split; [now apply wave_write_file_aligned|].
  split.
  { apply wave_open_read_canonical;
      first [lia | nia | now apply (aligned_even nch)]. }
  repeat (split; [reflexivity|]).
  now apply readframes_canonical.
Qed.

Lemma extract_try_passthrough (wav : bytes) (w : wave_reader) :
  wave_open_read wav = Ok w -> getnchannels w <> 2 ->
  extract_pcm_from_wav_try wav = Ok (readframes w (getnframes w)).
Proof.
  intros Hw Hc. unfold extract_pcm_from_wav_try. rewrite Hw. cbn [bind].
  destruct (Z.eqb_spec (getnchannels w) 2); [contradiction | reflexivity].
Qed.

(** C9 is refuted by a stereo buffer. The two frames (100,200) and
    (300,400) are a valid 16-bit stereo buffer at 44100 Hz; written as a
    stereo file and decoded by [extract_pcm_from_wav] they come back as the
    two mono samples 150 and 350, not as the buffer. And the encoder of the
    PCM fallback writes a mono header around whatever payload it is given,
    so the format read back from its blob has one channel, not two. *)
Lemma wav_roundtrip_counterexample :
  valid_pcm_format 2 44100 scenario_stereo /\
  (exists blob w,
      wave_write_file 2 2 44100 [scenario_stereo] = Ok blob /\
      wave_open_read blob = Ok w /\ getnchannels w = 2 /\
      extract_pcm_from_wav blob = tobytes_int16 [150; 350] /\
      extract_pcm_from_wav blob <> scenario_stereo) /\
  (exists blob w,
      pcm_stage (mkSynth (fun _ _ => Ok scenario_stereo)) [] = Ok blob /\
      wave_open_read blob = Ok w /\ getnchannels w = 1).
Proof.
  split; [|split].
  - unfold valid_pcm_format. split; [right; reflexivity|].
    split; [lia|]. split; [lia|]. split; vm_compute; reflexivity.
  - eexists. eexists.
    split; [vm_compute; reflexivity|].
    split; [vm_compute; reflexivity|].
    split; [reflexivity|].
    split; [vm_compute; reflexivity|].
    vm_compute. discriminate.
  - eexists. eexists.
    split; [vm_compute; reflexivity|].
    split; [vm_compute; reflexivity|]. reflexivity.
Qed.

(** C9 (amended): container round trip, for mono. For every 16-bit mono
    buffer of whole samples whose size fits the 32-bit length fields of
    the container, the encoder of the PCM fallback of [synthesize_speech]
    produces the WAV header for one channel, two bytes per sample and
    44100 Hz followed by the raw payload; the container read back reports
    exactly that format and the frame count of the buffer, and the decoder
    [extract_pcm_from_wav] returns a buffer bit-identical to the one
    encoded. The same holds for a mono file written by the same writer
    calls at any positive rate whose byte rate fits 32 bits. *)
Theorem wav_roundtrip :
  (forall (s : synthesizer) (text pcm : bytes),
      synthesize s text audio_l16_rate_44100 = Ok pcm ->
      valid_pcm_format 1 44100 pcm ->
      exists blob w,
        pcm_stage s text = Ok blob /\
        blob = wav_header 1 2 44100 (len pcm) ++ pcm /\
        wave_open_read blob = Ok w /\
        getnchannels w = 1 /\ getsampwidth w = 2 /\ getframerate w = 44100 /\
        getnframes w = len pcm / 2 /\
        extract_pcm_from_wav blob = pcm)
  /\ (forall (rate : Z) (pcm : bytes),
      valid_pcm_format 1 rate pcm ->
      exists blob w,
        wave_write_file 1 2 rate [pcm] = Ok blob /\
        blob = wav_header 1 2 rate (len pcm) ++ pcm /\
        wave_open_read blob = Ok w /\
        getnchannels w = 1 /\ getsampwidth w = 2 /\ getframerate w = rate /\
        getnframes w = len pcm / 2 /\
        extract_pcm_from_wav blob = pcm).
Proof.
  assert (H : forall (rate : Z) (pcm : bytes),
             valid_pcm_format 1 rate pcm ->
             exists blob w,
               wave_write_file 1 2 rate [pcm] = Ok blob /\
               blob = wav_header 1 2 rate (len pcm) ++ pcm /\
               wave_open_read blob = Ok w /\
               getnchannels w = 1 /\ getsampwidth w = 2 /\ getframerate w = rate /\
               getnframes w = len pcm / 2 /\
               extract_pcm_from_wav blob = pcm).
  { intros rate pcm (_ & Hr1 & Hr2 & Hal & Hsz).
    pose proof (aligned_even 1 (len pcm) ltac:(lia) Hal) as Hev.
    pose proof (wave_open_read_canonical 1 rate pcm ltac:(lia) ltac:(lia)
                  ltac:(lia) Hsz Hev) as Ho.
    eexists. eexists.
    split; [apply wave_write_file_aligned; (assumption || lia)|].
    split; [reflexivity|].
    split; [exact Ho|].
    repeat (split; [reflexivity|]).
    unfold extract_pcm_from_wav.
    rewrite (extract_try_passthrough _ _ Ho) by (cbn; lia).
    cbn [try_except getnframes w_nframes].
    apply readframes_canonical; [lia | assumption]. }
  split; [|exact H].
  intros s text pcm Hs Hv.
  destruct (H 44100 pcm Hv) as (blob & w & Hw & Hrest).
  exists blob, w. split; [|exact Hrest].
  unfold pcm_stage. rewrite Hs. exact Hw.
Qed.

Lemma wav_roundtrip_witness :
  exists blob w,
    pcm_stage (mkSynth (fun _ _ => Ok scenario_pcm)) [] = Ok blob /\
    blob = wav_header 1 2 44100 (len scenario_pcm) ++ scenario_pcm /\
    wave_open_read blob = Ok w /\
    getnchannels w = 1 /\ getsampwidth w = 2 /\ getframerate w = 44100 /\
    getnframes w = len scenario_pcm / 2 /\
    extract_pcm_from_wav blob = scenario_pcm.
Proof.
  apply (proj1 wav_roundtrip (mkSynth (fun _ _ => Ok scenario_pcm)) []
           scenario_pcm).
  - reflexivity.
  - unfold valid_pcm_format. split; [left; reflexivity|].
    split; [lia|]. split; [lia|].
    split; vm_compute; reflexivity.
Defined.

(** C6 is refuted by a three-channel file: no error is raised and the
    interleaved payload is returned as it is. *)
Lemma extract_unsupported_channels_counterexample :
  (exists w, wave_open_read (wav_of 3 (tobytes_int16 [1; 2; 3; 4; 5; 6])) = Ok w
             /\ getnchannels w = 3) /\
  extract_pcm_from_wav_try (wav_of 3 (tobytes_int16 [1; 2; 3; 4; 5; 6]))
    = Ok (tobytes_int16 [1; 2; 3; 4; 5; 6]) /\
  extract_pcm_from_wav (wav_of 3 (tobytes_int16 [1; 2; 3; 4; 5; 6]))
    = tobytes_int16 [1; 2; 3; 4; 5; 6].
Proof.
  split; [|split]; [|vm_compute; reflexivity..].
  destruct (wave_open_read (wav_of 3 (tobytes_int16 [1; 2; 3; 4; 5; 6]))) as [w|e] eqn:E.
  - exists w. split; [reflexivity|].
    revert E. vm_compute. intros [= <-]. reflexivity.
  - revert E. vm_compute. discriminate.
Qed.

(** C6 (amended): for every WAV input whose channel count is not 2, and so
    for every count that is neither 1 nor 2, [extract_pcm_from_wav] raises
    no error: it returns the PCM payload that the container reader
    delivers, interleaved and unchanged, exactly as for mono. A file
    written with three or more channels is returned as its payload. When
    the container cannot be opened at all, the input blob is returned
    unchanged. *)
Theorem extract_other_channel_counts :
  (forall (wav : bytes) (w : wave_reader),
      wave_open_read wav = Ok w -> getnchannels w <> 2 ->
      extract_pcm_from_wav_try wav = Ok (readframes w (getnframes w)) /\
      extract_pcm_from_wav wav = readframes w (getnframes w))
  /\ (forall (nch rate : Z) (pcm : bytes),
      3 <= nch -> nch * 2 < 65536 -> 0 < rate -> nch * rate * 2 < 2 ^ 32 ->
      len pcm mod (nch * 2) = 0 -> 36 + len pcm < 2 ^ 32 ->
      exists blob,
        wave_write_file nch 2 rate [pcm] = Ok blob /\
        extract_pcm_from_wav_try blob = Ok pcm /\
        extract_pcm_from_wav blob = pcm)
  /\ (forall (wav : bytes) (e : exn),
      wave_open_read wav = Raise e -> extract_pcm_from_wav wav = wav).
Proof.
  split; [|split].
  - intros wav w Hw Hc. unfold extract_pcm_from_wav.
    rewrite (extract_try_passthrough wav w Hw Hc). split; reflexivity.
  - intros nch rate pcm Hn1 Hn2 Hr1 Hr2 Hal Hsz.
    destruct (wave_write_read nch rate pcm)
      as (blob & w & Hw & Ho & H1 & H2 & H3 & H4 & H5); try assumption; try lia.
    exists blob. split; [assumption|].
    unfold extract_pcm_from_wav.
    rewrite (extract_try_passthrough blob w Ho) by lia.
    rewrite H5. split; reflexivity.
  - intros wav e He. unfold extract_pcm_from_wav, extract_pcm_from_wav_try.
    rewrite He. reflexivity.
Qed.

Lemma extract_other_channel_counts_witness :
  exists blob,
    wave_write_file 3 2 44100 [tobytes_int16 [1; 2; 3; 4; 5; 6]] = Ok blob /\
    extract_pcm_from_wav_try blob = Ok (tobytes_int16 [1; 2; 3; 4; 5; 6]) /\
    extract_pcm_from_wav blob = tobytes_int16 [1; 2; 3; 4; 5; 6].
Proof.
  apply (proj1 (proj2 extract_other_channel_counts) 3 44100
           (tobytes_int16 [1; 2; 3; 4; 5; 6])); try lia;
    vm_compute; reflexivity.
Defined.

(** ** [fix_audio_for_unity]: conversion to 16 bits *)

Lemma wrap16_range (v : Z) : int16_min <= wrap16 v <= int16_max.
Proof.
  unfold wrap16, int16_min, int16_max.
  pose proof (Z.mod_pos_bound (v + 32768) 65536 ltac:(lia)). lia.
Qed.

Lemma wrap16_id (v : Z) : int16_min <= v <= int16_max -> wrap16 v = v.
Proof.
  unfold wrap16, int16_min, int16_max. intros H.
  rewrite Z.mod_small by lia. lia.
Qed.

Lemma astype_int16_range (f : float) :
  int16_min <= astype_int16 f <= int16_max.
Proof.
  unfold astype_int16.
  destruct (py_int f) as [t|e]; [|unfold int16_min, int16_max; lia].
  destruct (_ && _); [apply wrap16_range | unfold int16_min, int16_max; lia].
Qed.

Lemma astype_int16_in_range (f : float) (t : Z) :
  py_int f = Ok t -> int16_min <= t <= int16_max -> astype_int16 f = t.
Proof.
  intros Hf Ht. unfold astype_int16. rewrite Hf.
  unfold int16_min, int16_max in Ht.
  destruct (Z.leb_spec (- 2 ^ 31) t); [|lia].
  destruct (Z.ltb_spec t (2 ^ 31)); [|lia].
  cbn [andb]. now apply wrap16_id.
Qed.

Lemma fold_max_le (a : list Z) (x b : Z) :
  x <= b -> Forall (fun v => v <= b) a -> fold_left Z.max a x <= b.
Proof.
  revert x; induction a as [|v a IH]; intros x Hx Ha; cbn [fold_left]; [assumption|].
  inversion Ha; subst. apply IH; [lia | assumption].
Qed.

(** The peak found by "normalize to avoid clipping" is computed on the
    16-bit array itself. *)
Lemma np_max_abs16 (a : list Z) (m : Z) :
  np_max (map np_abs16 a) = Ok m -> m <= 32767.
Proof.
  destruct a as [|x a]; cbn [map np_max]; [discriminate|].
  intros [= <-]. apply fold_max_le.
  - apply (wrap16_range (Z.abs x)).
  - apply Forall_forall. intros v Hv. apply in_map_iff in Hv.
    destruct Hv as (y & <- & _). apply (wrap16_range (Z.abs y)).
Qed.

(** What [to_int16] returns on a non-empty array. *)
Lemma to_int16_elementwise (dt : fdtype) (l : list float) :
  l <> [] ->
  to_int16 dt l
  = Ok (map (fun v => astype_int16 (np_round (store dt (v * 32767)%float))) l).
Proof.
  intros Hne. unfold to_int16. cbv zeta.
  destruct (np_max _) as [m|e] eqn:E.
  - apply np_max_abs16 in E. cbn [bind].
    destruct (Z.ltb_spec 32767 m); [lia | reflexivity].
  - destruct l; [contradiction | discriminate].
Qed.

Lemma to_int16_nonempty (dt : fdtype) (l : list float) (out : list Z) :
  to_int16 dt l = Ok out -> l <> [].
Proof. intros H ->. discriminate. Qed.

(** C2 is refuted on four samples whose cubic interpolant overshoots: the
    interpolated value at index 3 is above 1, it is not clamped, its
    product with 32767 rounds to 36862, and the output sample wraps to
    -28674; clamping would have given 32767 there. *)
Lemma to_int16_counterexample :
  exists l,
    fix_audio_floats env_scipy overshoot_pcm 22050 44100 = Ok (F64, l) /\
    (1 <? nth 3 l 0)%float = true /\
    rint_Z (nth 3 l 0 * 32767)%float = 36862 /\
    spec_to_int16 l = [0; 20479; 32766; 32767; 32766; 20479; 0; 0] /\
    fix_audio_for_unity env_scipy overshoot_pcm 22050 44100
      = tobytes_int16 [0; 20479; 32766; -28674; 32766; 20479; 0; 0].
Proof.
  eexists. split; [vm_compute; reflexivity|].
  repeat split; vm_compute; reflexivity.
Qed.

(** C2 (amended): [fix_audio_for_unity] does not clamp the float
    intermediates into [-1,1]: each value is multiplied by 32767, rounded
    to the nearest integer and cast to 16 bits. Every output sample is a
    16-bit value in [-32768, 32767]; and whenever every rounded product
    already lies in [-32768, 32767] (no intermediate overshoots), the
    output is exactly those rounded products, unscaled and without any
    wrap-around. *)
Theorem to_int16_unclamped :
  (forall (dt : fdtype) (l : list float) (out : list Z),
      to_int16 dt l = Ok out ->
      length out = length l /\ Forall (fun v => -32768 <= v <= 32767) out)
  /\ (forall (dt : fdtype) (l : list float) (rs : list Z),
      l <> [] ->
      mapM (fun v => py_int (np_round (store dt (v * 32767)%float))) l = Ok rs ->
      Forall (fun r => -32768 <= r <= 32767) rs ->
      to_int16 dt l = Ok rs)
  /\ (forall (E : numpy_env) (pcm : bytes) (src tgt : Z) (dt : fdtype)
             (l : list float) (out : list Z),
      src <> tgt ->
      fix_audio_floats E pcm src tgt = Ok (dt, l) ->
      to_int16 dt l = Ok out ->
      fix_audio_for_unity E pcm src tgt = tobytes_int16 out).
Proof.
  split; [|split].
  - intros dt l out H.
    pose proof (to_int16_nonempty _ _ _ H) as Hne.
    rewrite (to_int16_elementwise dt l Hne) in H. injection H as <-.
    split; [apply length_map|].
    apply Forall_forall. intros v Hv. apply in_map_iff in Hv.
    destruct Hv as (x & <- & _). apply astype_int16_range.
  - intros dt l rs Hne Hm Hr.
    rewrite (to_int16_elementwise dt l Hne). f_equal.
    clear Hne. revert rs Hm Hr. induction l as [|v l IH]; intros rs Hm Hr.
    + injection Hm as <-. reflexivity.
    + cbn [mapM] in Hm. bind_inv Hm as r Hv. bind_inv Hm as rs' Hl.
      injection Hm as <-. inversion Hr; subst.
      cbn [map]. f_equal; [now apply astype_int16_in_range | now apply IH].
  - intros E pcm src tgt dt l out Hne Hf Ho.
    unfold fix_audio_for_unity. destruct (Z.eqb_spec src tgt); [contradiction|].
    unfold fix_audio_try. rewrite Hf. cbn [bind]. rewrite Ho. reflexivity.
Qed.

Lemma to_int16_unclamped_witness :
  to_int16 F64 [0; 0x1p-1; -1; 1]%float = Ok [0; 16384; -32767; 32767].
Proof.
  apply (proj1 (proj2 to_int16_unclamped) F64 [0; 0x1p-1; -1; 1]%float).
  - discriminate.
  - vm_compute. reflexivity.
  - repeat constructor; lia.
Defined.

(** ** [fix_audio_for_unity] without scipy *)

(** When the import of scipy raises, the body of the outer [try] raises,
    whatever the input: the inner handler is never reached. *)
Lemma fix_audio_import_failure (E : numpy_env) (pcm : bytes) (src tgt : Z) (e : exn) :
  scipy_import E = Raise e ->
  (exists e', fix_audio_try E pcm src tgt = Raise e') /\
  fix_audio_for_unity E pcm src tgt
  = if src =? tgt then pcm
    else try_except (simple_resample_try pcm src tgt) (fun _ => pcm).
Proof.
  intros Hi.
  assert (H : exists e', fix_audio_try E pcm src tgt = Raise e').
  { unfold fix_audio_try, fix_audio_floats.
    destruct (frombuffer_int16 pcm) as [samples|e1]; cbn [bind]; [|eauto].
    destruct (py_int_truediv _ _) as [q|e2]; cbn [bind]; [|eauto].
    destruct (py_int q) as [n|e3]; cbn [bind]; [|eauto].
    rewrite Hi. cbn [bind]. eauto. }
  split; [assumption|].
  destruct H as [e' H]. unfold fix_audio_for_unity. now rewrite H.
Qed.

(** C8 (code bug): with scipy missing, the import inside the outer [try]
    raises before the inner [try] that holds the linear fallback is
    entered, so the outer handler runs the "simple resampling" instead,
    which repeats source samples without interpolating. On the samples
    [0; 100] resampled from 1000 Hz to 2000 Hz the result is
    [0; 0; 100; 100]; linear interpolation, as in [resample_audio] and as
    in the inner handler when it is reached, gives [0; 50; 100; 100]. *)
Theorem fix_audio_scipy_missing :
  fix_audio_try env_no_scipy (tobytes_int16 [0; 100]) 1000 2000 = Raise ImportError /\
  fix_audio_for_unity env_no_scipy (tobytes_int16 [0; 100]) 1000 2000
    = tobytes_int16 [0; 0; 100; 100] /\
  resample_audio (tobytes_int16 [0; 100]) 1000 2000
    = tobytes_int16 [0; 50; 100; 100] /\
  fix_audio_for_unity env_late_import_error (tobytes_int16 [0; 100]) 1000 2000
    = tobytes_int16 [0; 50; 100; 100].
Proof. repeat split; vm_compute; reflexivity. Qed.

(** ** The pilot tone *)




(** ** The fallback chain of [synthesize_speech] *)

Lemma wav_stage_fails (E : numpy_env) (s : synthesizer) (text : bytes) (e : exn) :
  wav_stage E s text = Raise e <-> synthesize s text audio_wav = Raise e.
Proof.
  unfold wav_stage.
  destruct (synthesize s text audio_wav) as [w|e']; cbn [bind]; split;
    congruence.
Qed.

(** C1 is refuted: with no synthesizer the entry point returns nothing,
    and when the WAV request, the raw-PCM request and the beep generation
    all raise it returns nothing as well, not silence. *)
Lemma synthesize_speech_counterexample :
  synthesize_speech env_scipy [] None = None /\
  is_ok (wav_stage env_broken failing_synthesizer []) = false /\
  is_ok (pcm_stage failing_synthesizer []) = false /\
  is_ok (beep_stage env_broken) = false /\
  synthesize_speech env_broken [] (Some failing_synthesizer) = None.
Proof. repeat split; vm_compute; reflexivity. Qed.

(** C1 (amended): [synthesize_speech] can fail outright. It returns
    nothing ([None]) when no synthesizer is given, and when the WAV
    request, the raw-PCM fallback and the beep generation all fail; it has
    no silence fallback. The terminal silence path belongs to
    [create_basic_unity_compatible_audio]: whenever its tone generation
    fails it returns a fixed buffer of 100 samples of 16-bit silence, and
    that function returns a buffer for every input. *)
Theorem synthesize_speech_fallbacks :
  (forall (E : numpy_env) (text : bytes), synthesize_speech E text None = None)
  /\ (forall (E : numpy_env) (text : bytes) (s : synthesizer) (e1 e2 e3 : exn),
      synthesize s text audio_wav = Raise e1 ->
      pcm_stage s text = Raise e2 ->
      beep_stage E = Raise e3 ->
      synthesize_speech E text (Some s) = None)
  /\ (forall (E : numpy_env) (text : bytes) (s : synthesizer) (e1 e2 : exn)
             (beep : bytes),
      synthesize s text audio_wav = Raise e1 ->
      pcm_stage s text = Raise e2 ->
      beep_stage E = Ok beep ->
      synthesize_speech E text (Some s) = Some beep)
  /\ (forall (E : numpy_env) (pcm : bytes) (source_rate unity_rate : Z) (e : exn),
      create_basic_try E unity_rate = Raise e ->
      create_basic_unity_compatible_audio E pcm source_rate unity_rate = silence)
  /\ silence = tobytes_int16 (repeat 0 100).
Proof.
  split; [reflexivity|]. split; [|split; [|split]].
  - intros E text s e1 e2 e3 H1 H2 H3. unfold synthesize_speech.
    apply (proj2 (wav_stage_fails E s text e1)) in H1. now rewrite H1, H2, H3.
  - intros E text s e1 e2 beep H1 H2 H3. unfold synthesize_speech.
    apply (proj2 (wav_stage_fails E s text e1)) in H1. now rewrite H1, H2, H3.
  - intros E pcm sr ur e H. unfold create_basic_unity_compatible_audio.
    now rewrite H.
  - vm_compute. reflexivity.
Qed.

Lemma synthesize_speech_fallbacks_witness :
  synthesize_speech env_broken [] (Some failing_synthesizer) = None /\
  create_basic_unity_compatible_audio env_scipy [] 22050 (-1) = silence.
Proof.
  split.
  - apply (proj1 (proj2 synthesize_speech_fallbacks) env_broken []
             failing_synthesizer ApiException ApiException OtherException);
      vm_compute; reflexivity.
  - apply (proj1 (proj2 (proj2 (proj2 synthesize_speech_fallbacks)))
             env_scipy [] 22050 (-1) ValueError).
    vm_compute. reflexivity.
Defined.

(** * Further properties of the code *)

(** ** [extract_pcm_from_wav] beyond mono *)

Lemma wave_open_read_not_riff (wav : bytes) :
  bytes_eqb (slice wav 0 4) tag_RIFF = false ->
  exists e, wave_open_read wav = Raise e.
Proof.
  intros H. unfold wave_open_read. cbv zeta.
  destruct (len (slice wav 0 4) <? 4); [eauto|].
  destruct (unpack_uint 4 (slice wav 4 8)); [|eauto].
  rewrite H. cbn [negb]. eauto.
Qed.

(** X1: input that does not start with the RIFF tag (any other data, or fewer
    than four bytes) is returned unchanged. *)
Theorem extract_not_riff (wav : bytes) :
  bytes_eqb (slice wav 0 4) tag_RIFF = false ->
  extract_pcm_from_wav wav = wav.
Proof.
  intros H. destruct (wave_open_read_not_riff wav H) as [e He].
  unfold extract_pcm_from_wav, extract_pcm_from_wav_try. now rewrite He.
Qed.

Lemma extract_not_riff_witness :
  extract_pcm_from_wav [Byte.x01; Byte.x02; Byte.x03; Byte.x04; Byte.x05]
  = [Byte.x01; Byte.x02; Byte.x03; Byte.x04; Byte.x05].
Proof. apply extract_not_riff. vm_compute. reflexivity. Defined.

Lemma tobytes_len (samples : list Z) :
  len (tobytes_int16 samples) = 2 * len samples.
Proof. unfold len. rewrite tobytes_length. lia. Qed.

(** X2: a stereo file written from interleaved samples is extracted as the mono
    buffer of the per-frame means: reading the container and mixing the
    channels compose. *)
Theorem extract_stereo_file (rate : Z) (samples : list Z) :
  Forall (fun v => -32768 <= v <= 32767) samples ->
  Nat.even (length samples) = true ->
  0 < rate -> 2 * rate * 2 < 2 ^ 32 ->
  36 + 2 * len samples < 2 ^ 32 ->
  exists blob,
    wave_write_file 2 2 rate [tobytes_int16 samples] = Ok blob /\
    extract_pcm_from_wav blob = tobytes_int16 (mix_pairs samples) /\
    len (extract_pcm_from_wav blob) = len samples.
Proof.
  intros Hr Hev Hrate Hbr Hsz.
  set (pcm := tobytes_int16 samples).
  assert (Hlen : len pcm = 2 * len samples) by apply tobytes_len.
  pose proof (even_div2 _ Hev) as Hd.
  assert (Hal : len pcm mod (2 * 2) = 0).
  { rewrite Hlen. unfold len. rewrite Hd at 1.
    replace (2 * Z.of_nat (2 * Nat.div2 (length samples)))
      with (Z.of_nat (Nat.div2 (length samples)) * (2 * 2)) by lia.
    apply Z.mod_mul. lia. }
  destruct (wave_write_read 2 rate pcm) as (blob & w & Hw & Ho & H1 & H2 & H3 & H4 & H5);
    try lia.
  exists blob. split; [assumption|].
  assert (He : extract_pcm_from_wav blob = tobytes_int16 (mix_pairs samples)).
  { unfold extract_pcm_from_wav, extract_pcm_from_wav_try.
    rewrite Ho. cbn [bind]. rewrite H1, Z.eqb_refl, H5, H4.
    replace (len pcm / (2 * 2) * 2) with (len pcm / 2).
    - unfold pcm. now rewrite stereo_to_mono_samples.
    - pose proof (Z.div_mod (len pcm) (2 * 2) ltac:(lia)) as E1.
      rewrite Hal, Z.add_0_r in E1.
      rewrite E1 at 1.
      replace (2 * 2 * (len pcm / (2 * 2))) with (len pcm / (2 * 2) * 2 * 2) by lia.
      now rewrite Z.div_mul by lia. }
  split; [assumption|].
  rewrite He. unfold len. rewrite tobytes_length, mix_pairs_length.
  unfold len in *. lia.
Qed.

Lemma extract_stereo_file_witness :
  exists blob,
    wave_write_file 2 2 44100 [tobytes_int16 [100; 200; 300; 400]] = Ok blob /\
    extract_pcm_from_wav blob = tobytes_int16 (mix_pairs [100; 200; 300; 400]) /\
    len (extract_pcm_from_wav blob) = len [100; 200; 300; 400].
Proof.
  apply (extract_stereo_file 44100 [100; 200; 300; 400]).
  - repeat constructor; lia.
  - reflexivity.
  - lia.
  - lia.
  - vm_compute. reflexivity.
Defined.

(** ** The channel mix *)

Lemma mix_pairs_duplicate (mono : list Z) :
  mix_pairs (flat_map (fun v => [v; v]) mono) = mono.
Proof.
  induction mono as [|v mono IH]; [reflexivity|].
  cbn [flat_map app mix_pairs]. rewrite IH. f_equal.
  replace (v + v) with (v * 2) by lia. apply Z.div_mul. lia.
Qed.

(** X3: when both channels carry the same signal the downmix returns that
    signal exactly: floor division loses nothing on an even sum. In general
    every mixed sample lies between its left and its right sample. *)
Theorem downmix_identical_channels :
  (forall mono : list Z,
      Forall (fun v => -32768 <= v <= 32767) mono ->
      stereo_to_mono (tobytes_int16 (flat_map (fun v => [v; v]) mono))
        (len (tobytes_int16 (flat_map (fun v => [v; v]) mono)) / 2)
      = Ok (tobytes_int16 mono))
  /\ (forall l r : Z, Z.min l r <= (l + r) / 2 <= Z.max l r).
Proof.
  split.
  - intros mono Hr.
    rewrite stereo_to_mono_samples.
    + now rewrite mix_pairs_duplicate.
    + apply Forall_forall. intros x Hx. apply in_flat_map in Hx.
      destruct Hx as (v & Hv & Hx). rewrite Forall_forall in Hr.
      destruct Hx as [<- | [<- | []]]; now apply Hr.
    + clear Hr. induction mono as [|v mono IH]; [reflexivity|]. exact IH.
  - intros l r.
    pose proof (Z.div_mod (l + r) 2 ltac:(lia)).
    pose proof (Z.mod_pos_bound (l + r) 2 ltac:(lia)). lia.
Qed.

Lemma downmix_identical_channels_witness :
  stereo_to_mono (tobytes_int16 (flat_map (fun v => [v; v]) [-3; 7; -32768]))
    (len (tobytes_int16 (flat_map (fun v => [v; v]) [-3; 7; -32768])) / 2)
  = Ok (tobytes_int16 [-3; 7; -32768]).
Proof.
  apply (proj1 downmix_identical_channels [-3; 7; -32768]).
  repeat constructor; lia.
Defined.

(** ** The WAV writer on arbitrary payloads *)

(** Rewriting the two length fields of a header gives the header of the new
    length. *)
Lemma patch_wav_header (nch sw rate d d' : Z) :
  set_slice (set_slice (wav_header nch sw rate d) 4 8 (le_bytes 4 (36 + d')))
    40 44 (le_bytes 4 d')
  = wav_header nch sw rate d'.
Proof. reflexivity. Qed.

Lemma wave_open_write_ok (nch sw rate : Z) :
  writable nch sw rate ->
  wave_open_write nch sw rate = Ok (mkWriter nch sw rate None 0 0 []).
Proof.
  intros (Hn & Hs & Hr & _). unfold wave_open_write.
  destruct (Z.ltb_spec nch 1); [lia|].
  destruct (Z.ltb_spec sw 1); [lia|].
  destruct (Z.ltb_spec 4 sw); [lia|].
  destruct (Z.leb_spec rate 0); [lia|]. reflexivity.
Qed.

(** The first [writeframes] on a fresh writer. *)
Lemma writeframes_first (nch sw rate : Z) (d : bytes) :
  writable nch sw rate -> 36 + len d < 2 ^ 32 ->
  writeframes (mkWriter nch sw rate None 0 0 []) d
  = Ok (mkWriter nch sw rate (Some (wav_header nch sw rate (len d)))
          (len d) (len d) d).
Proof.
  intros (Hn & Hs & Hr & Hal & Hbr) Hsz.
  pose proof (len_nonneg d) as Hl.
  set (dl := len d / (nch * sw) * nch * sw).
  assert (Hdl : 0 <= dl <= len d).
  { unfold dl. pose proof (Z.div_mod (len d) (nch * sw) ltac:(nia)) as E.
    pose proof (Z.mod_pos_bound (len d) (nch * sw) ltac:(nia)).
    assert (0 <= len d / (nch * sw)) by (apply Z.div_pos; nia).
    nia. }
  unfold writeframes, ensure_header_written. cbn [ww_header].
  unfold write_header.
  cbn [ww_nchannels ww_sampwidth ww_framerate ww_datawritten ww_payload].
  fold dl.
  rewrite !pack_uint_ok by (unfold WAVE_FORMAT_PCM;
                            change (256 ^ Z.of_nat 4) with (2 ^ 32);
                            change (256 ^ Z.of_nat 2) with 65536; nia).
  cbn [bind ww_nchannels ww_sampwidth ww_framerate ww_header ww_datalength
       ww_datawritten ww_payload app].
  unfold patchheader.
  cbn [ww_nchannels ww_sampwidth ww_framerate ww_header ww_datalength
       ww_datawritten ww_payload].
  rewrite Z.add_0_l.
  destruct (Z.eqb_spec (len d) dl) as [E|E].
  - rewrite <- E. reflexivity.
  - rewrite !pack_uint_ok by (change (256 ^ Z.of_nat 4) with (2 ^ 32); lia).
    cbn [bind]. now rewrite <- (patch_wav_header nch sw rate dl (len d)).
Qed.

(** A further [writeframes]. *)
Lemma writeframes_next (nch sw rate t : Z) (p d : bytes) :
  0 <= t -> 36 + t + len d < 2 ^ 32 ->
  writeframes (mkWriter nch sw rate (Some (wav_header nch sw rate t)) t t p) d
  = Ok (mkWriter nch sw rate (Some (wav_header nch sw rate (t + len d)))
          (t + len d) (t + len d) (p ++ d)).
Proof.
  intros Ht Hsz. pose proof (len_nonneg d) as Hl.
  unfold writeframes, ensure_header_written. cbn [ww_header bind].
  unfold patchheader.
  cbn [ww_nchannels ww_sampwidth ww_framerate ww_header ww_datalength
       ww_datawritten ww_payload].
  destruct (Z.eqb_spec (t + len d) t) as [E|E].
  - rewrite E. reflexivity.
  - rewrite !pack_uint_ok by (change (256 ^ Z.of_nat 4) with (2 ^ 32); lia).
    cbn [bind]. now rewrite <- (patch_wav_header nch sw rate t (t + len d)).
Qed.

Lemma wave_close_written (nch sw rate t : Z) (p : bytes) :
  wave_close_getvalue (mkWriter nch sw rate (Some (wav_header nch sw rate t)) t t p)
  = Ok (wav_header nch sw rate t ++ p).
Proof.
  unfold wave_close_getvalue, ensure_header_written. cbn [ww_header bind].
  unfold patchheader. cbn [ww_datawritten ww_datalength].
  rewrite Z.eqb_refl. reflexivity.
Qed.

(** Whatever the payload, whole frames or not, the file written is the
    canonical header for the length of the payload followed by the
    payload. *)
Lemma wave_write_file_one (nch sw rate : Z) (d : bytes) :
  writable nch sw rate -> 36 + len d < 2 ^ 32 ->
  wave_write_file nch sw rate [d] = Ok (wav_header nch sw rate (len d) ++ d).
Proof.
  intros Hw Hsz. unfold wave_write_file.
  rewrite (wave_open_write_ok _ _ _ Hw). cbn [bind fold_left].
  rewrite (writeframes_first _ _ _ _ Hw Hsz). cbn [bind].
  apply wave_close_written.
Qed.

Lemma writable_mono_44100 : writable 1 2 44100.
Proof. unfold writable. lia. Qed.

(** ** The paths of [synthesize_speech] *)

Lemma tone_data_len (E : numpy_env) (freq amp n : Z) (data : bytes) :
  0 <= n -> tone_data E freq amp n = Ok data -> len data = 2 * n.
Proof.
  intros Hn H. unfold tone_data in H.
  bind_inv H as values Hm. injection H as <-.
  change (flat_map le_of_int16 values) with (tobytes_int16 values).
  rewrite tobytes_len. unfold len.
  rewrite (mapM_length _ _ _ Hm), range_length. lia.
Qed.

Lemma tone_wav_ok (E : numpy_env) (freq amp n : Z) (data : bytes) :
  0 <= n -> 36 + 2 * n < 2 ^ 32 ->
  tone_data E freq amp n = Ok data ->
  (w <- wave_open_write 1 2 44100 ;;
   d <- tone_data E freq amp n ;;
   w' <- writeframes w d ;;
   wave_close_getvalue w')
  = Ok (wav_header 1 2 44100 (2 * n) ++ data).
Proof.
  intros Hn Hsz Ht.
  pose proof (tone_data_len _ _ _ _ _ Hn Ht) as Hl.
  rewrite (wave_open_write_ok _ _ _ writable_mono_44100). cbn [bind].
  rewrite Ht. cbn [bind].
  rewrite (writeframes_first _ _ _ _ writable_mono_44100) by lia. cbn [bind].
  rewrite Hl. apply wave_close_written.
Qed.

Lemma tone_wav_raise (E : numpy_env) (freq amp n : Z) (e : exn) :
  tone_data E freq amp n = Raise e ->
  (w <- wave_open_write 1 2 44100 ;;
   d <- tone_data E freq amp n ;;
   w' <- writeframes w d ;;
   wave_close_getvalue w')
  = Raise e.
Proof.
  intros Ht.
  rewrite (wave_open_write_ok _ _ _ writable_mono_44100). cbn [bind].
  now rewrite Ht.
Qed.

(** The pilot file, when it can be made, is the canonical file around the
    220 samples. *)
Lemma make_pilot_wav_inv (E : numpy_env) (pilot_wav : bytes) :
  make_pilot_wav E = Ok pilot_wav ->
  exists data,
    tone_data E 440 3276 220 = Ok data /\ len data = 440 /\
    pilot_wav = wav_header 1 2 44100 440 ++ data.
Proof.
  intros H. unfold make_pilot_wav in H.
  destruct (tone_data E 440 3276 220) as [data|e] eqn:Ht.
  - exists data. split; [reflexivity|].
    split; [apply (tone_data_len E 440 3276 220 data); [lia | assumption]|].
    change (wav_header 1 2 44100 440) with (wav_header 1 2 44100 (2 * 220)).
    pose proof (tone_wav_ok E 440 3276 220 data ltac:(lia) ltac:(lia) Ht) as Hk.
    rewrite Ht in Hk. rewrite Hk in H. now injection H as <-.
  - pose proof (tone_wav_raise E 440 3276 220 e Ht) as Hk.
    rewrite Ht in Hk. rewrite Hk in H. discriminate.
Qed.

Lemma pilot_reader (data : bytes) :
  len data = 440 ->
  exists w,
    wave_open_read (wav_header 1 2 44100 440 ++ data) = Ok w /\
    getnchannels w = 1 /\ getsampwidth w = 2 /\ getframerate w = 44100 /\
    readframes w (getnframes w) = data.
Proof.
  intros Hl. rewrite <- Hl.
  eexists. split.
  - apply wave_open_read_canonical; try lia. now rewrite Hl.
  - repeat (split; [reflexivity|]).
    apply readframes_canonical; [lia | now rewrite Hl].
Qed.

(** The analysis block leaves a file with a channel count other than two
    as it is, and so does it with a file that cannot be opened. *)
Lemma to_mono_unchanged (wav : bytes) :
  (forall w, wave_open_read wav = Ok w -> getnchannels w <> 2) ->
  try_except (to_mono_wav wav) (fun _ => wav) = wav.
Proof.
  intros H. unfold to_mono_wav.
  destruct (wave_open_read wav) as [w|e]; [|reflexivity].
  cbn [bind]. destruct (py_int_truediv _ _); [|reflexivity]. cbn [bind].
  destruct (Z.eqb_spec (getnchannels w) 2) as [E|E]; [|reflexivity].
  now apply H in E.
Qed.

Lemma add_pilot_unreadable (E : numpy_env) (wav : bytes) (e : exn) :
  wave_open_read wav = Raise e ->
  try_except (add_pilot_tone E wav) (fun _ => wav) = wav.
Proof.
  intros H. unfold add_pilot_tone.
  destruct (make_pilot_wav E) as [p|]; [|reflexivity]. cbn [bind].
  destruct (wave_open_read p) as [pw|]; [|reflexivity]. cbn [bind].
  now rewrite H.
Qed.

(** X4: a response that the WAV reader cannot open, for instance one that does
    not start with the RIFF tag, is returned as it is: no pilot tone, no
    fallback to the raw-PCM request. *)
Theorem synthesize_speech_unreadable_response
  (E : numpy_env) (s : synthesizer) (text wav : bytes) (e : exn) :
  synthesize s text audio_wav = Ok wav ->
  wave_open_read wav = Raise e ->
  synthesize_speech E text (Some s) = Some wav.
Proof.
  intros Hs Hw. unfold synthesize_speech, wav_stage. rewrite Hs. cbn [bind].
  rewrite to_mono_unchanged by (intros w Hw'; congruence).
  now rewrite (add_pilot_unreadable E wav e Hw).
Qed.

Lemma synthesize_speech_unreadable_response_witness :
  synthesize_speech env_scipy []
    (Some (mkSynth (fun _ _ => Ok [Byte.x00; Byte.x01; Byte.x02; Byte.x03; Byte.x04])))
  = Some [Byte.x00; Byte.x01; Byte.x02; Byte.x03; Byte.x04].
Proof.
  apply (synthesize_speech_unreadable_response env_scipy _ [] _ EOFError).
  - reflexivity.
  - vm_compute. reflexivity.
Defined.

(** The pilot block leaves a file of another format as it is, whether or
    not the pilot tone can be made. *)
Lemma add_pilot_mismatch (E : numpy_env) (wav : bytes) (w : wave_reader) :
  wave_open_read wav = Ok w ->
  getnchannels w <> 1 \/ getsampwidth w <> 2 \/ getframerate w <> 44100 ->
  try_except (add_pilot_tone E wav) (fun _ => wav) = wav.
Proof.
  intros Hw Hm. unfold add_pilot_tone.
  destruct (make_pilot_wav E) as [p|] eqn:Hp; [|reflexivity]. cbn [bind].
  destruct (make_pilot_wav_inv E p Hp) as (data & _ & Hl & ->).
  destruct (pilot_reader data Hl) as (pw & Hpw & Hc & Hs & Hr & _).
  rewrite Hpw. cbn [bind]. rewrite Hw. cbn [bind].
  rewrite Hc, Hs, Hr.
  destruct (Z.eqb_spec 1 (getnchannels w)); [|reflexivity].
  destruct (Z.eqb_spec 2 (getsampwidth w)); [|reflexivity].
  destruct (Z.eqb_spec 44100 (getframerate w)); [|reflexivity].
  lia.
Qed.

(** X5: a readable response that is not stereo and is not 16-bit mono at
    44100 Hz is returned as it is, in every environment. *)
Theorem synthesize_speech_other_format
  (E : numpy_env) (s : synthesizer) (text wav : bytes) (w : wave_reader) :
  synthesize s text audio_wav = Ok wav ->
  wave_open_read wav = Ok w ->
  getnchannels w <> 2 ->
  getnchannels w <> 1 \/ getsampwidth w <> 2 \/ getframerate w <> 44100 ->
  synthesize_speech E text (Some s) = Some wav.
Proof.
  intros Hs Hw Hc Hm. unfold synthesize_speech, wav_stage.
  rewrite Hs. cbn [bind].
  rewrite to_mono_unchanged by (intros w' Hw'; congruence).
  now rewrite (add_pilot_mismatch E wav w Hw Hm).
Qed.

Lemma synthesize_speech_other_format_witness :
  synthesize_speech env_no_scipy []
    (Some (mkSynth (fun _ _ =>
       Ok (wav_header 1 2 22050 4 ++ [Byte.x01; Byte.x00; Byte.x02; Byte.x00]))))
  = Some (wav_header 1 2 22050 4 ++ [Byte.x01; Byte.x00; Byte.x02; Byte.x00]).
Proof.
  eapply (synthesize_speech_other_format env_no_scipy _ []).
  - reflexivity.
  - vm_compute. reflexivity.
  - vm_compute. discriminate.
  - right. right. vm_compute. discriminate.
Defined.

(** X6: when the pilot tone cannot be computed, a response that is not stereo
    is returned as it is: the failure stays inside the pilot block. *)
Theorem synthesize_speech_pilot_failure
  (E : numpy_env) (s : synthesizer) (text wav : bytes) (e : exn) :
  synthesize s text audio_wav = Ok wav ->
  (forall w, wave_open_read wav = Ok w -> getnchannels w <> 2) ->
  tone_data E 440 3276 220 = Raise e ->
  synthesize_speech E text (Some s) = Some wav.
Proof.
  intros Hs Hc Ht. unfold synthesize_speech, wav_stage. rewrite Hs. cbn [bind].
  rewrite (to_mono_unchanged wav Hc).
  unfold add_pilot_tone.
  pose proof (tone_wav_raise E 440 3276 220 e Ht) as Hk.
  fold (make_pilot_wav E) in Hk. now rewrite Hk.
Qed.

Lemma synthesize_speech_pilot_failure_witness :
  synthesize_speech env_broken []
    (Some (mkSynth (fun _ _ =>
       Ok (wav_header 1 2 44100 2 ++ [Byte.x01; Byte.x00]))))
  = Some (wav_header 1 2 44100 2 ++ [Byte.x01; Byte.x00]).
Proof.
  apply (synthesize_speech_pilot_failure env_broken _ [] _ OtherException).
  - reflexivity.
  - intros w Hw. vm_compute in Hw. injection Hw as <-. vm_compute. discriminate.
  - vm_compute. reflexivity.
Defined.

(** The pilot block on a 16-bit mono file at 44100 Hz. *)
Lemma add_pilot_canonical (E : numpy_env) (data pcm : bytes) :
  tone_data E 440 3276 220 = Ok data ->
  Z.odd (len pcm) = false -> 476 + len pcm < 2 ^ 32 ->
  add_pilot_tone E (wav_header 1 2 44100 (len pcm) ++ pcm)
  = Ok (wav_header 1 2 44100 (440 + len pcm) ++ data ++ pcm).
Proof.
  intros Ht Hev Hsz. pose proof (len_nonneg pcm) as Hl.
  assert (Hld : len data = 440)
    by (apply (tone_data_len E 440 3276 220 data); [lia | assumption]).
  assert (Hal : len pcm mod (1 * 2) = 0).
  { rewrite Zodd_mod in Hev. change (1 * 2) with 2.
    destruct (Z.eqb_spec (len pcm mod 2) 1); [discriminate|].
    pose proof (Z.mod_pos_bound (len pcm) 2 ltac:(lia)). lia. }
  unfold add_pilot_tone.
  pose proof (tone_wav_ok E 440 3276 220 data ltac:(lia) ltac:(lia) Ht) as Hk.
  fold (make_pilot_wav E) in Hk. rewrite Hk. cbn [bind].
  change (2 * 220) with 440.
  destruct (pilot_reader data Hld) as (pw & Hpw & Hc & Hs & Hr & Hrf).
  rewrite Hpw. cbn [bind].
  rewrite wave_open_read_canonical by (assumption || lia). cbn [bind].
  rewrite Hc, Hs, Hr, Hrf.
  cbn [getnchannels getsampwidth getframerate getnframes w_fmt w_nframes
       f_nchannels f_framerate f_sampwidth Z.eqb Pos.eqb negb orb].
  rewrite readframes_canonical by (assumption || lia).
  rewrite (wave_open_write_ok _ _ _ writable_mono_44100). cbn [bind].
  rewrite (writeframes_first _ _ _ _ writable_mono_44100) by lia. cbn [bind].
  rewrite Hld.
  rewrite writeframes_next by lia. cbn [bind].
  apply wave_close_written.
Qed.

(** X7: a 16-bit mono response at 44100 Hz comes back as one file: the header
    for the joint length, the 220 pilot samples, then the speech payload,
    byte for byte. *)
Theorem synthesize_speech_mono_pilot
  (E : numpy_env) (s : synthesizer) (text data pcm : bytes) :
  synthesize s text audio_wav = Ok (wav_header 1 2 44100 (len pcm) ++ pcm) ->
  tone_data E 440 3276 220 = Ok data ->
  Z.odd (len pcm) = false -> 476 + len pcm < 2 ^ 32 ->
  synthesize_speech E text (Some s)
  = Some (wav_header 1 2 44100 (440 + len pcm) ++ data ++ pcm).
Proof.
  intros Hs Ht Hev Hsz. pose proof (len_nonneg pcm) as Hl.
  unfold synthesize_speech, wav_stage. rewrite Hs. cbn [bind].
  rewrite to_mono_unchanged.
  - now rewrite (add_pilot_canonical E data pcm Ht Hev Hsz).
  - intros w Hw.
    rewrite wave_open_read_canonical in Hw by (assumption || lia).
    injection Hw as <-. cbn. lia.
Qed.

Lemma synthesize_speech_mono_pilot_witness :
  exists data,
    tone_data env_scipy 440 3276 220 = Ok data /\
    synthesize_speech env_scipy []
      (Some (mkSynth (fun _ _ =>
         Ok (wav_header 1 2 44100 (len [Byte.x01; Byte.x00])
               ++ [Byte.x01; Byte.x00]))))
    = Some (wav_header 1 2 44100 (440 + len [Byte.x01; Byte.x00])
              ++ data ++ [Byte.x01; Byte.x00]).
Proof.
  eexists. split.
  - vm_compute. reflexivity.
  - apply (synthesize_speech_mono_pilot env_scipy _ [] _ [Byte.x01; Byte.x00]).
    + reflexivity.
    + vm_compute. reflexivity.
    + reflexivity.
    + vm_compute. reflexivity.
Defined.

Lemma py_int_truediv_44100 (n : Z) :
  exists d, py_int_truediv n 44100 = Ok d.
Proof.
  unfold py_int_truediv, py_truediv.
  replace (float_of_Z 44100 =? 0)%float with false by (vm_compute; reflexivity).
  eauto.
Qed.

(** The analysis block on a 16-bit stereo file at 44100 Hz. *)
Lemma to_mono_stereo (samples : list Z) :
  Forall (fun v => -32768 <= v <= 32767) samples ->
  Nat.even (length samples) = true ->
  36 + 2 * len samples < 2 ^ 32 ->
  to_mono_wav (wav_header 2 2 44100 (len (tobytes_int16 samples))
                 ++ tobytes_int16 samples)
  = Ok (wav_header 1 2 44100 (len (tobytes_int16 (mix_pairs samples)))
          ++ tobytes_int16 (mix_pairs samples)).
Proof.
  intros Hr Hev Hsz.
  set (pcm := tobytes_int16 samples).
  assert (Hlen : len pcm = 2 * len samples) by apply tobytes_len.
  pose proof (len_nonneg samples) as Hl.
  pose proof (even_div2 _ Hev) as Hd.
  assert (Hal : len pcm mod (2 * 2) = 0).
  { rewrite Hlen. unfold len. rewrite Hd at 1.
    replace (2 * Z.of_nat (2 * Nat.div2 (length samples)))
      with (Z.of_nat (Nat.div2 (length samples)) * (2 * 2)) by lia.
    apply Z.mod_mul. lia. }
  assert (Hodd : Z.odd (len pcm) = false).
  { rewrite Hlen, Z.odd_mul. reflexivity. }
  assert (Hm : len (tobytes_int16 (mix_pairs samples)) = len samples).
  { rewrite tobytes_len. unfold len. rewrite mix_pairs_length. lia. }
  unfold to_mono_wav.
  rewrite wave_open_read_canonical by (assumption || lia). cbn [bind].
  cbn [getnchannels getsampwidth getframerate getnframes w_fmt w_nframes
       f_nchannels f_framerate f_sampwidth Z.eqb Pos.eqb].
  destruct (py_int_truediv_44100 (len pcm / (2 * 2))) as [d ->]. cbn [bind].
  rewrite readframes_canonical by (assumption || lia).
  rewrite (wave_open_write_ok _ _ _ writable_mono_44100). cbn [bind].
  unfold pcm. rewrite stereo_to_mono_samples by assumption. cbn [bind].
  rewrite (writeframes_first _ _ _ _ writable_mono_44100) by lia. cbn [bind].
  apply wave_close_written.
Qed.

(** X8: a 16-bit stereo response at 44100 Hz comes back as a mono file: the
    pilot samples followed by the per-frame means of the two channels. *)
Theorem synthesize_speech_stereo_pilot
  (E : numpy_env) (s : synthesizer) (text data : bytes) (samples : list Z) :
  synthesize s text audio_wav
  = Ok (wav_header 2 2 44100 (len (tobytes_int16 samples))
          ++ tobytes_int16 samples) ->
  tone_data E 440 3276 220 = Ok data ->
  Forall (fun v => -32768 <= v <= 32767) samples ->
  Nat.even (length samples) = true ->
  476 + 2 * len samples < 2 ^ 32 ->
  synthesize_speech E text (Some s)
  = Some (wav_header 1 2 44100 (440 + len samples)
            ++ data ++ tobytes_int16 (mix_pairs samples)).
Proof.
  intros Hs Ht Hr Hev Hsz. pose proof (len_nonneg samples) as Hl.
  assert (Hm : len (tobytes_int16 (mix_pairs samples)) = len samples).
  { rewrite tobytes_len. unfold len. rewrite mix_pairs_length.
    pose proof (even_div2 _ Hev). lia. }
  unfold synthesize_speech, wav_stage. rewrite Hs. cbn [bind].
  rewrite to_mono_stereo by (assumption || lia). cbn [try_except].
  rewrite (add_pilot_canonical E data _ Ht).
  - cbn [try_except]. now rewrite Hm.
  - rewrite tobytes_len, Z.odd_mul. reflexivity.
  - lia.
Qed.

Lemma synthesize_speech_stereo_pilot_witness :
  exists data,
    tone_data env_scipy 440 3276 220 = Ok data /\
    synthesize_speech env_scipy []
      (Some (mkSynth (fun _ _ =>
         Ok (wav_header 2 2 44100 (len (tobytes_int16 [100; 201; -7; -8]))
               ++ tobytes_int16 [100; 201; -7; -8]))))
    = Some (wav_header 1 2 44100 (440 + len [100; 201; -7; -8])
              ++ data ++ tobytes_int16 (mix_pairs [100; 201; -7; -8])).
Proof.
  eexists. split.
  - vm_compute. reflexivity.
  - apply (synthesize_speech_stereo_pilot env_scipy _ [] _ [100; 201; -7; -8]).
    + reflexivity.
    + vm_compute. reflexivity.
    + repeat constructor; lia.
    + reflexivity.
    + vm_compute. reflexivity.
Defined.

(** X9: when the WAV request fails and the raw-PCM request succeeds, the result
    is the canonical mono header for the length of the payload followed by
    the payload, whatever its length; a payload of whole samples is what
    [extract_pcm_from_wav] reads back from it. *)
Theorem synthesize_speech_pcm_fallback
  (E : numpy_env) (s : synthesizer) (text pcm : bytes) (e : exn) :
  synthesize s text audio_wav = Raise e ->
  synthesize s text audio_l16_rate_44100 = Ok pcm ->
  36 + len pcm < 2 ^ 32 ->
  synthesize_speech E text (Some s)
  = Some (wav_header 1 2 44100 (len pcm) ++ pcm)
  /\ (Z.odd (len pcm) = false ->
      extract_pcm_from_wav (wav_header 1 2 44100 (len pcm) ++ pcm) = pcm).
Proof.
  intros Hw Hp Hsz. pose proof (len_nonneg pcm) as Hl. split.
  - unfold synthesize_speech, wav_stage, pcm_stage. rewrite Hw, Hp. cbn [bind].
    now rewrite (wave_write_file_one _ _ _ _ writable_mono_44100 Hsz).
  - intros Hev.
    assert (Hal : len pcm mod (1 * 2) = 0).
    { rewrite Zodd_mod in Hev. change (1 * 2) with 2.
      destruct (Z.eqb_spec (len pcm mod 2) 1); [discriminate|].
      pose proof (Z.mod_pos_bound (len pcm) 2 ltac:(lia)). lia. }
    unfold extract_pcm_from_wav.
    pose proof (wave_open_read_canonical 1 44100 pcm ltac:(lia) ltac:(lia)
                  ltac:(lia) Hsz Hev) as Ho.
    rewrite (extract_try_passthrough _ _ Ho) by (cbn; lia).
    cbn [try_except getnframes w_nframes].
    apply readframes_canonical; [lia | assumption].
Qed.

Lemma synthesize_speech_pcm_fallback_witness :
  synthesize_speech env_broken []
    (Some (mkSynth (fun _ a =>
       match a with
       | audio_wav => Raise ApiException
       | audio_l16_rate_44100 => Ok [Byte.x01; Byte.x02; Byte.x03]
       end)))
  = Some (wav_header 1 2 44100 (len [Byte.x01; Byte.x02; Byte.x03])
            ++ [Byte.x01; Byte.x02; Byte.x03]).
Proof.
  apply (synthesize_speech_pcm_fallback env_broken _ [] _ ApiException).
  - reflexivity.
  - reflexivity.
  - vm_compute. reflexivity.
Defined.

(** X10: when both requests fail the result depends on the environment alone:
    the 4410 beep samples behind their header when the tone can be
    computed, nothing when it cannot. *)
Theorem synthesize_speech_beep
  (E : numpy_env) (s : synthesizer) (text : bytes) (e1 e2 : exn) :
  synthesize s text audio_wav = Raise e1 ->
  synthesize s text audio_l16_rate_44100 = Raise e2 ->
  synthesize_speech E text (Some s)
  = match tone_data E 880 16383 4410 with
    | Ok data => Some (wav_header 1 2 44100 8820 ++ data)
    | Raise _ => None
    end.
Proof.
  intros H1 H2. unfold synthesize_speech, wav_stage, pcm_stage, beep_stage.
  rewrite H1, H2. cbn [bind].
  destruct (tone_data E 880 16383 4410) as [data|e] eqn:Ht.
  - pose proof (tone_wav_ok E 880 16383 4410 data ltac:(lia) ltac:(lia) Ht) as Hk.
    rewrite Ht in Hk. now rewrite Hk.
  - pose proof (tone_wav_raise E 880 16383 4410 e Ht) as Hk.
    rewrite Ht in Hk. now rewrite Hk.
Qed.

Lemma synthesize_speech_beep_witness :
  synthesize_speech env_broken [] (Some failing_synthesizer) = None.
Proof.
  rewrite (synthesize_speech_beep env_broken failing_synthesizer []
             ApiException ApiException); reflexivity.
Defined.

(** ** The two resamplers on degenerate and on arbitrary buffers *)

Lemma mapM_all_raise {A B : Type} (f : A -> result B) (l : list A) (r : list B) :
  (forall a, exists e, f a = Raise e) -> mapM f l = Ok r -> r = [].
Proof.
  intros Hf H. destruct l as [|a l]; cbn [mapM] in H.
  - now injection H as <-.
  - destruct (Hf a) as [e He]. rewrite He in H. discriminate.
Qed.

Lemma getitem_nil {A : Type} (k : Z) : @getitem A [] k = Raise IndexError.
Proof.
  unfold getitem. change (len (@nil A)) with 0.
  destruct (Z.ltb_spec k 0).
  - destruct (Z.ltb_spec (0 + k) 0); [reflexivity | lia].
  - destruct (Z.ltb_spec k 0); [lia|].
    destruct (Z.leb_spec 0 k); [reflexivity | lia].
Qed.

Lemma resample_sample_nil (ratio : float) (i : Z) :
  exists e, resample_sample [] ratio i = Raise e.
Proof.
  unfold resample_sample.
  destruct (py_truediv _ _); cbn [bind]; [|eauto].
  destruct (py_int _); cbn [bind]; [|eauto].
  destruct (_ <=? _); rewrite getitem_nil; cbn [bind]; eauto.
Qed.

(** [0.0 / r] is a zero or a NaN, so [int(0 / r)] is 0 when it is defined. *)
Lemma py_int_zero_div (r q : float) (n : Z) :
  py_truediv (float_of_Z 0) r = Ok q -> py_int q = Ok n -> n = 0.
Proof.
  unfold py_truediv. destruct (r =? 0)%float; [discriminate|].
  intros [= <-]. unfold py_int. rewrite div_spec.
  replace (Prim2SF (float_of_Z 0)) with (S754_zero false)
    by (vm_compute; reflexivity).
  destruct (Prim2SF r) as [s|s| |s m e]; cbn; congruence.
Qed.

Lemma fix_audio_try_nil (E : numpy_env) (src tgt : Z) :
  exists e, fix_audio_try E [] src tgt = Raise e.
Proof.
  unfold fix_audio_try, fix_audio_floats. cbn [frombuffer_int16 bind map].
  destruct (py_int_truediv _ _); cbn [bind]; [|eauto].
  destruct (py_int _); cbn [bind]; [|eauto].
  destruct (scipy_import E); cbn [bind]; [|eauto].
  unfold interpolate_stage. rewrite getitem_nil. cbn [bind]. eauto.
Qed.

(** X11: the empty buffer goes through both resamplers as the empty buffer,
    for every pair of rates and in every environment: no sample is ever
    made from nothing. *)
Theorem resamplers_empty_buffer :
  (forall src tgt : Z, resample_audio [] src tgt = [])
  /\ (forall (E : numpy_env) (src tgt : Z), fix_audio_for_unity E [] src tgt = []).
Proof.
  split.
  - intros src tgt. unfold resample_audio.
    destruct (src =? tgt); [reflexivity|].
    destruct (resample_audio_try [] src tgt) as [b|e] eqn:H; [|reflexivity].
    cbn [try_except]. unfold resample_audio_try in H.
    cbn [frombuffer_int16 bind] in H.
    bind_inv H as ft Hft. bind_inv H as fs Hfs. bind_inv H as ratio Hr.
    bind_inv H as n Hn. bind_inv H as z Hz. bind_inv H as resampled Hm.
    injection H as <-.
    now rewrite (mapM_all_raise _ _ _ (resample_sample_nil ratio) Hm).
  - intros E src tgt. unfold fix_audio_for_unity.
    destruct (src =? tgt); [reflexivity|].
    destruct (fix_audio_try_nil E src tgt) as [e ->]. cbn [try_except].
    destruct (simple_resample_try [] src tgt) as [b|e'] eqn:H; [|reflexivity].
    cbn [try_except]. unfold simple_resample_try in H.
    cbn [frombuffer_int16 bind] in H.
    bind_inv H as fs Hfs. bind_inv H as fu Hfu. bind_inv H as ratio Hr.
    bind_inv H as q Hq. bind_inv H as n Hn.
    change (len (@nil Z)) with 0 in Hq.
    rewrite (py_int_zero_div _ _ _ Hq Hn) in H.
    cbn in H. now injection H as <-.
Qed.

Lemma frombuffer_len (b : bytes) (a : list Z) :
  frombuffer_int16 b = Ok a -> len b = 2 * len a.
Proof.
  intros H. rewrite <- (tobytes_frombuffer b a H). apply tobytes_len.
Qed.

Lemma resample_audio_try_even (pcm out : bytes) (src tgt : Z) :
  resample_audio_try pcm src tgt = Ok out ->
  Z.odd (len pcm) = false /\ Z.odd (len out) = false.
Proof.
  intros H. unfold resample_audio_try in H.
  bind_inv H as samples Hs. bind_inv H as ft Hft. bind_inv H as fs Hfs.
  bind_inv H as ratio Hr. bind_inv H as n Hn. bind_inv H as z Hz.
  bind_inv H as resampled Hm. injection H as <-.
  rewrite (frombuffer_len _ _ Hs), tobytes_len, !Z.odd_mul. split; reflexivity.
Qed.

Lemma fix_audio_try_even (E : numpy_env) (pcm out : bytes) (src tgt : Z) :
  fix_audio_try E pcm src tgt = Ok out ->
  Z.odd (len pcm) = false /\ Z.odd (len out) = false.
Proof.
  intros H. unfold fix_audio_try in H.
  bind_inv H as x Hx. destruct x as [dt fl].
  bind_inv H as resampled Hm. injection H as <-.
  unfold fix_audio_floats in Hx. bind_inv Hx as samples Hs.
  rewrite (frombuffer_len _ _ Hs), tobytes_len, !Z.odd_mul. split; reflexivity.
Qed.

Lemma simple_resample_try_even (pcm out : bytes) (src tgt : Z) :
  simple_resample_try pcm src tgt = Ok out ->
  Z.odd (len pcm) = false /\ Z.odd (len out) = false.
Proof.
  intros H. unfold simple_resample_try in H.
  bind_inv H as samples Hs. bind_inv H as fs Hfs. bind_inv H as fu Hfu.
  bind_inv H as ratio Hr. bind_inv H as q Hq. bind_inv H as n Hn.
  bind_inv H as z Hz. bind_inv H as resampled Hm. injection H as <-.
  rewrite (frombuffer_len _ _ Hs), tobytes_len, !Z.odd_mul. split; reflexivity.
Qed.

(** X12: both resamplers keep the parity of the byte length: a buffer of whole
    16-bit samples comes back as a buffer of whole samples, whatever the
    rates and whichever branch produced it, and a buffer with a trailing
    odd byte comes back with an odd length (it is the input itself). *)
Theorem resamplers_keep_parity :
  (forall (pcm : bytes) (src tgt : Z),
      Z.odd (len (resample_audio pcm src tgt)) = Z.odd (len pcm))
  /\ (forall (E : numpy_env) (pcm : bytes) (src tgt : Z),
      Z.odd (len (fix_audio_for_unity E pcm src tgt)) = Z.odd (len pcm))
  /\ (forall (E : numpy_env) (pcm : bytes) (src tgt : Z),
      Z.odd (len pcm) = true -> fix_audio_for_unity E pcm src tgt = pcm).
Proof.
  split; [|split].
  - intros pcm src tgt. unfold resample_audio.
    destruct (src =? tgt); [reflexivity|].
    destruct (resample_audio_try pcm src tgt) as [b|e] eqn:H; [|reflexivity].
    destruct (resample_audio_try_even _ _ _ _ H) as [H1 H2].
    cbn [try_except]. congruence.
  - intros E pcm src tgt. unfold fix_audio_for_unity.
    destruct (src =? tgt); [reflexivity|].
    destruct (fix_audio_try E pcm src tgt) as [b|e] eqn:H.
    + destruct (fix_audio_try_even _ _ _ _ _ H) as [H1 H2].
      cbn [try_except]. congruence.
    + cbn [try_except].
      destruct (simple_resample_try pcm src tgt) as [b|e'] eqn:H'; [|reflexivity].
      destruct (simple_resample_try_even _ _ _ _ H') as [H1 H2].
      cbn [try_except]. congruence.
  - intros E pcm src tgt Hodd. unfold fix_audio_for_unity.
    destruct (src =? tgt); [reflexivity|].
    destruct (fix_audio_try E pcm src tgt) as [b|e] eqn:H.
    + destruct (fix_audio_try_even _ _ _ _ _ H). congruence.
    + cbn [try_except].
      destruct (simple_resample_try pcm src tgt) as [b|e'] eqn:H'; [|reflexivity].
      destruct (simple_resample_try_even _ _ _ _ H'). congruence.
Qed.

Lemma getitem_In {A : Type} (l : list A) (k : Z) (a : A) :
  getitem l k = Ok a -> In a l.
Proof.
  unfold getitem. destruct (_ || _); [discriminate|].
  destruct (nth_error l _) eqn:H; [|discriminate].
  intros [= <-]. now apply nth_error_In in H.
Qed.

Lemma simple_sample_value (samples : list Z) (ratio : float) (i v : Z) :
  simple_sample samples ratio i = Ok v -> v = 0 \/ In v samples.
Proof.
  unfold simple_sample. intros H. bind_inv H as k Hk.
  destruct (k <? len samples - 1); [right; now apply getitem_In in H|].
  destruct (k <? len samples); [right; now apply getitem_In in H|].
  left. congruence.
Qed.

(** X13: when the import of scipy fails, [fix_audio_for_unity] makes no new
    sample value: every sample of its output is a sample of the input or
    the zero that [np.zeros] left in place. *)
Theorem fix_audio_without_scipy_samples
  (E : numpy_env) (pcm : bytes) (src tgt : Z) (e : exn) :
  scipy_import E = Raise e ->
  Forall (fun v => v = 0 \/ In v (samples_of pcm))
         (samples_of (fix_audio_for_unity E pcm src tgt)).
Proof.
  intros Hi.
  assert (Hself : Forall (fun v => v = 0 \/ In v (samples_of pcm)) (samples_of pcm))
    by (apply Forall_forall; intros v Hv; now right).
  rewrite (proj2 (fix_audio_import_failure E pcm src tgt e Hi)).
  destruct (src =? tgt); [assumption|].
  destruct (simple_resample_try pcm src tgt) as [b|e'] eqn:H; [|assumption].
  cbn [try_except]. unfold simple_resample_try in H.
  bind_inv H as samples Hs. bind_inv H as fs Hfs. bind_inv H as fu Hfu.
  bind_inv H as ratio Hr. bind_inv H as q Hq. bind_inv H as n Hn.
  bind_inv H as z Hz. bind_inv H as resampled Hm. injection H as <-.
  pose proof (frombuffer_range _ _ Hs) as Hrange.
  assert (Hv : Forall (fun v => v = 0 \/ In v samples) resampled)
    by (apply (mapM_Forall _ _ _ _ (simple_sample_value samples ratio) Hm)).
  assert (Hso : samples_of pcm = samples)
    by (unfold samples_of; now rewrite Hs).
  rewrite Hso, samples_of_tobytes; [assumption|].
  apply Forall_forall. intros v Hin. rewrite Forall_forall in Hv, Hrange.
  destruct (Hv v Hin) as [-> | Hin']; [unfold int16_min, int16_max; lia|].
  now apply Hrange.
Qed.

Lemma fix_audio_without_scipy_samples_witness :
  Forall (fun v => v = 0 \/ In v (samples_of (tobytes_int16 [5; -7; 9])))
         (samples_of (fix_audio_for_unity env_no_scipy (tobytes_int16 [5; -7; 9])
                        22050 48000)).
Proof.
  apply (fix_audio_without_scipy_samples env_no_scipy _ 22050 48000 ImportError).
  reflexivity.
Defined.

(** ** The smoothing filter of [fix_audio_for_unity] *)

Lemma nth_map_lt {A B : Type} (f : A -> B) (l : list A) (i : nat) (d : B) (d' : A) :
  (i < length l)%nat -> nth i (map f l) d = f (nth i l d').
Proof.
  revert i. induction l as [|a l IH]; intros [|i] H; cbn in *; try lia.
  - reflexivity.
  - apply IH. lia.
Qed.

(** X14: the boxcar filter keeps the number of samples and leaves the first
    three and the last three samples as they are, whatever the element
    type; an array of at most ten samples is not filtered at all. *)
Theorem smooth_edges (dt : fdtype) (a : list float) :
  length (smooth dt a) = length a
  /\ (forall k : Z, k < 3 \/ len a - 3 <= k ->
        nth_float (smooth dt a) k = nth_float a k)
  /\ (len a <= 10 -> smooth dt a = a).
Proof.
  unfold smooth. destruct (Z.ltb_spec 10 (len a)) as [H|H].
  - split; [|split].
    + rewrite length_map, range_length. unfold len. lia.
    + intros k Hk. unfold nth_float at 1.
      destruct (Nat.lt_ge_cases (Z.to_nat k) (length a)) as [Hlt|Hge].
      * rewrite (nth_map_lt _ _ _ _ 0)
          by (rewrite range_length; unfold len; lia).
        rewrite range_nth by (unfold len; lia).
        destruct (Z.leb_spec 3 (Z.of_nat (Z.to_nat k))) as [H3|H3];
          destruct (Z.ltb_spec (Z.of_nat (Z.to_nat k)) (len a - 3)) as [H4|H4];
          cbn [andb]; unfold nth_float; rewrite ?Nat2Z.id; try reflexivity.
        unfold len in *. lia.
      * rewrite nth_overflow
          by (rewrite length_map, range_length; unfold len; lia).
        unfold nth_float. now rewrite nth_overflow by lia.
    + lia.
  - split; [reflexivity|]. split; [reflexivity|]. reflexivity.
Qed.

(** ** [create_basic_unity_compatible_audio] *)

Lemma basic_tone_value_raises (E : numpy_env) (unity_rate num_samples i : Z) (e : exn) :
  (forall x, np_sin E x = Raise e) ->
  exists e', basic_tone_value E unity_rate num_samples i = Raise e'.
Proof.
  intros Hs. unfold basic_tone_value.
  destruct (py_int_truediv i unity_rate); cbn [bind]; [|eauto].
  rewrite Hs. cbn [bind]. eauto.
Qed.

(** X15: the test tone always is a buffer of whole 16-bit samples, the 200 bytes
    of silence of the handler included; and when the sine cannot be
    computed the result is that silence, or the empty buffer when the rate
    gives no sample at all. *)
Theorem create_basic_whole_samples
  (E : numpy_env) (pcm_data : bytes) (source_rate unity_rate : Z) :
  Z.odd (len (create_basic_unity_compatible_audio E pcm_data source_rate unity_rate))
  = false
  /\ (forall e : exn,
        (forall x, np_sin E x = Raise e) ->
        create_basic_unity_compatible_audio E pcm_data source_rate unity_rate = silence
        \/ create_basic_unity_compatible_audio E pcm_data source_rate unity_rate = []).
Proof.
  unfold create_basic_unity_compatible_audio.
  destruct (create_basic_try E unity_rate) as [b|e0] eqn:H; cbn [try_except].
  - unfold create_basic_try in H.
    bind_inv H as fu Hfu. bind_inv H as n Hn. bind_inv H as u Hu.
    bind_inv H as values Hm. injection H as <-.
    split.
    + change (flat_map le_of_int16 values) with (tobytes_int16 values).
      now rewrite tobytes_len, Z.odd_mul.
    + intros e Hs. right.
      now rewrite (mapM_all_raise _ _ _
                     (fun i => basic_tone_value_raises E unity_rate n i e Hs) Hm).
  - split; [reflexivity|]. intros e Hs. now left.
Qed.

(** ** [verify_pcm_format] *)

Lemma first_ten_samples_ok (pcm_data : bytes) :
  20 <= len pcm_data -> exists l, first_ten_samples pcm_data = Ok l.
Proof.
  intros H. unfold len in H.
  do 20 (destruct pcm_data as [|? pcm_data]; [cbn [length] in H; lia|]).
  unfold first_ten_samples.
  replace (range_step 20 2) with [0; 2; 4; 6; 8; 10; 12; 14; 16; 18]
    by (vm_compute; reflexivity).
  eexists. cbn. reflexivity.
Qed.

(** X16: the logging loop of [verify_pcm_format] cannot fail: the function
    raises exactly when the division by the expected rate raises, and it
    returns its input otherwise. With the default rate of 22050 it is the
    identity on every buffer; with a rate of 0 it raises
    [ZeroDivisionError] on every buffer. *)
Theorem verify_pcm_format_result :
  (forall (pcm_data : bytes) (rate : Z),
      verify_pcm_format pcm_data rate
      = (py_int_truediv (len pcm_data / 2) rate ;;; Ok pcm_data))
  /\ (forall pcm_data : bytes, verify_pcm_format pcm_data 22050 = Ok pcm_data)
  /\ (forall pcm_data : bytes,
      verify_pcm_format pcm_data 0 = Raise ZeroDivisionError).
Proof.
  assert (H : forall pcm_data rate,
             verify_pcm_format pcm_data rate
             = (py_int_truediv (len pcm_data / 2) rate ;;; Ok pcm_data)).
  { intros pcm_data rate. unfold verify_pcm_format. cbv zeta.
    destruct (py_int_truediv _ _); [|reflexivity]. cbn [bind].
    destruct (Z.leb_spec 20 (len pcm_data)) as [Hl|Hl]; [|reflexivity].
    now destruct (first_ten_samples_ok pcm_data Hl) as [l ->]. }
  split; [exact H|]. split; intros pcm_data; rewrite H.
  - unfold py_int_truediv, py_truediv.
    replace (float_of_Z 22050 =? 0)%float with false by (vm_compute; reflexivity).
    reflexivity.
  - unfold py_int_truediv, py_truediv.
    replace (float_of_Z 0 =? 0)%float with true by (vm_compute; reflexivity).
    reflexivity.
Qed.

(** ** [initialize_speech_synthesizer] *)

(** X17: a client is returned exactly when the service URL is set and not
    empty, a key is found, and the connection test succeeds with that key
    and URL; the key is the TTS-specific one when that is set and not
    empty, and the generic one otherwise. *)
Theorem initialize_speech_synthesizer_some
  (environ : String.string -> option String.string)
  (connect : String.string -> String.string -> result synthesizer)
  (client : synthesizer) :
  initialize_speech_synthesizer environ connect = Some client
  <-> exists k u,
        environ "IBM_TTS_SERVICE_URL"%string = Some u /\ truthy (Some u) = true /\
        truthy (Some k) = true /\
        (environ "IBM_TTS_API_KEY"%string = Some k \/
         (truthy (environ "IBM_TTS_API_KEY"%string) = false /\
          environ "IBM_API_KEY"%string = Some k)) /\
        connect k u = Ok client.
Proof.
  unfold initialize_speech_synthesizer, py_or. cbv zeta. split.
  - destruct (truthy (environ "IBM_TTS_API_KEY"%string)) eqn:Ht.
    + rewrite Ht. cbn [negb].
      destruct (truthy (environ "IBM_TTS_SERVICE_URL"%string)) eqn:Hu;
        [|discriminate]. cbn [negb].
      destruct (environ "IBM_TTS_API_KEY"%string) as [k|]; [|discriminate].
      destruct (environ "IBM_TTS_SERVICE_URL"%string) as [u|]; [|discriminate].
      destruct (connect k u) eqn:Hc; [|discriminate].
      intros [= <-]. exists k, u. auto 10.
    + destruct (truthy (environ "IBM_API_KEY"%string)) eqn:Hg; [|discriminate].
      cbn [negb].
      destruct (truthy (environ "IBM_TTS_SERVICE_URL"%string)) eqn:Hu;
        [|discriminate]. cbn [negb].
      destruct (environ "IBM_API_KEY"%string) as [k|]; [|discriminate].
      destruct (environ "IBM_TTS_SERVICE_URL"%string) as [u|]; [|discriminate].
      destruct (connect k u) eqn:Hc; [|discriminate].
      intros [= <-]. exists k, u. auto 10.
  - intros (k & u & Hu & Htu & Htk & [Hk | [Hn Hk]] & Hc).
    + rewrite Hk, Hu, Htk, Htk, Htu. cbn [negb]. now rewrite Hc.
    + rewrite Hn, Hk, Hu, Htk, Htu. cbn [negb]. now rewrite Hc.
Qed.

(** ** The buffered audio source *)

Lemma cut_index_bound (n size : Z) :
  0 <= size -> Z.of_nat (cut_index n size) <= size.
Proof. intros H. unfold cut_index. destruct (Z.ltb_spec size 0); lia. Qed.

Lemma source_deliver_len (s : audio_source) (size : Z) :
  0 <= size -> len (fst (source_deliver s size)) <= size.
Proof.
  intros H. unfold source_deliver.
  destruct (src_buffer s) as [|b r]; [cbn; lia|].
  cbn [fst]. unfold len at 1. rewrite length_firstn.
  pose proof (cut_index_bound (len (b :: r)) size H). lia.
Qed.

(** X18: a call of [read] with a size that is not negative returns at most that
    many bytes. *)
Theorem source_read_at_most (s : audio_source) (size : Z) :
  0 <= size -> len (fst (source_read s size)) <= size.
Proof.
  intros H. unfold source_read.
  destruct (len (src_buffer s) <? size); [|now apply source_deliver_len].
  destruct (src_input s) as [|[[|b chunk]| |] rest];
    try (now apply source_deliver_len); cbn; lia.
Qed.

Lemma source_read_at_most_witness :
  len (fst (source_read
              (mkSource [Chunk [Byte.x01; Byte.x02; Byte.x03]] [Byte.x00] 1 true)
              3)) <= 3.
Proof. apply source_read_at_most. lia. Defined.

Lemma source_deliver_keeps (s : audio_source) (size : Z) :
  let '(out, s') := source_deliver s size in
  src_input s' = src_input s /\
  out ++ src_buffer s' = src_buffer s /\
  src_bytes_read s' = src_bytes_read s /\
  src_is_recording s' = src_is_recording s.
Proof.
  unfold source_deliver. destruct (src_buffer s) as [|b r] eqn:Hb.
  - now rewrite Hb.
  - cbn [src_input src_buffer src_bytes_read src_is_recording].
    now rewrite firstn_skipn.
Qed.

Ltac source_done :=
  cbn [src_input src_buffer src_bytes_read src_is_recording chunk_bytes
       flat_map existsb is_broken_pipe orb negb app length];
  rewrite ?app_nil_r, ?andb_true_r, ?andb_false_r;
  repeat split;
  first [reflexivity | assumption | congruence | lia
        | unfold len; cbn [length]; lia].

(** One call of [read] takes at most one outcome from stdin, and moves
    bytes without losing, repeating or reordering any. *)
Lemma source_read_step (s : audio_source) (size : Z) :
  let '(out, s') := source_read s size in
  exists consumed,
    src_input s = consumed ++ src_input s' /\
    (length consumed <= 1)%nat /\
    out ++ src_buffer s' = src_buffer s ++ chunk_bytes consumed /\
    src_bytes_read s' = src_bytes_read s + len (chunk_bytes consumed) /\
    src_is_recording s'
    = src_is_recording s && negb (existsb is_broken_pipe consumed).
Proof.
  unfold source_read.
  destruct (len (src_buffer s) <? size).
  - destruct (src_input s) as [|[[|b chunk]| |] rest] eqn:Hi.
    + pose proof (source_deliver_keeps s size) as H.
      destruct (source_deliver s size) as [out s'].
      destruct H as (H1 & H2 & H3 & H4). exists []. source_done.
    + match goal with |- context [source_deliver ?t size] =>
        pose proof (source_deliver_keeps t size) as H;
        destruct (source_deliver t size) as [out s'] end.
      cbn [src_input src_buffer src_bytes_read src_is_recording] in H.
      destruct H as (H1 & H2 & H3 & H4). exists [Chunk []]. source_done.
    + match goal with |- context [source_deliver ?t size] =>
        pose proof (source_deliver_keeps t size) as H;
        destruct (source_deliver t size) as [out s'] end.
      cbn [src_input src_buffer src_bytes_read src_is_recording] in H.
      destruct H as (H1 & H2 & H3 & H4). exists [Chunk (b :: chunk)].
      source_done.
    + exists [BrokenPipe]. source_done.
    + exists [InputError]. source_done.
  - pose proof (source_deliver_keeps s size) as H.
    destruct (source_deliver s size) as [out s'].
    destruct H as (H1 & H2 & H3 & H4). exists []. source_done.
Qed.

Lemma chunk_bytes_app (a b : list input_event) :
  chunk_bytes (a ++ b) = chunk_bytes a ++ chunk_bytes b.
Proof. unfold chunk_bytes. apply flat_map_app. Qed.

(** X19: over any sequence of calls of [read], with any sizes: the bytes
    returned so far followed by the buffer are the initial buffer followed
    by the chunks taken from stdin, in order; the byte counter grew by the
    number of bytes taken; at most one outcome of stdin was taken per call;
    and the recording flag is on exactly when it was on before and no
    broken pipe was met. *)
Theorem source_reads_conserve (s : audio_source) (sizes : list Z) :
  let '(outs, s') := source_reads s sizes in
  exists consumed,
    src_input s = consumed ++ src_input s' /\
    (length consumed <= length sizes)%nat /\
    concat outs ++ src_buffer s' = src_buffer s ++ chunk_bytes consumed /\
    src_bytes_read s' = src_bytes_read s + len (chunk_bytes consumed) /\
    src_is_recording s'
    = src_is_recording s && negb (existsb is_broken_pipe consumed).
Proof.
  revert s. induction sizes as [|size sizes IH]; intros s.
  - cbn [source_reads]. exists []. source_done.
  - cbn [source_reads].
    pose proof (source_read_step s size) as H1.
    destruct (source_read s size) as [out s1].
    specialize (IH s1). destruct (source_reads s1 sizes) as [outs s2].
    destruct H1 as (c1 & Ha1 & Hb1 & Hc1 & Hd1 & He1).
    destruct IH as (c2 & Ha2 & Hb2 & Hc2 & Hd2 & He2).
    exists (c1 ++ c2).
    rewrite chunk_bytes_app, existsb_app, length_app. cbn [concat length].
    split; [rewrite Ha1, Ha2; now rewrite app_assoc|].
    split; [lia|].
    split; [rewrite <- app_assoc, Hc2, app_assoc, Hc1; now rewrite app_assoc|].
    split.
    + rewrite Hd2, Hd1. unfold len. rewrite length_app. lia.
    + rewrite He2, He1, negb_orb. now rewrite andb_assoc.
Qed.
